(** * Aftershock-prediction front end: the client-side computations

    A shallow embedding of the pure helpers of the activity cards
    (distance, direction, radius filter, before/after split, foreshock
    ranking, heatmap bucketing, activity level), of the hazard-zone radii
    of the map, and of the two stateful pieces of the UI (the fetch
    handlers and the debounced search box).

    Number model.  A JavaScript number is read as a real number: the
    arithmetic of the helpers is the idealised one, without rounding,
    NaN or infinities.  The hazard-zone radii are the exception: a power
    of ten leaves the range of the doubles, so they are computed in
    [JS.Double], which has the infinities, NaN and the flush to zero.
    A [Date] is its time value, an integer count of milliseconds, so
    date arithmetic is arithmetic on [Z]; the quotient of a millisecond
    difference by the length of a day is a rational. *)

From Stdlib Require Import Reals Lra Lia ZArith QArith Qround Bool.
From Stdlib Require Import List String Sorting.Sorted Sorting.Permutation.
From Stdlib Require DecimalString.
Import ListNotations.

Local Open Scope Z_scope.

(** ** Numbers and [Math] *)

Module JS.

(** [x <= y] and [x < y] on numbers, as the booleans the code branches on. *)
Definition Rleb (x y : R) : bool := if Rle_dec x y then true else false.
Definition Rltb (x y : R) : bool := if Rlt_dec x y then true else false.

(** A holder of values a comparator may return: all [Array.prototype.sort]
    looks at is whether the value is positive. *)
Class Number (N : Type) := nonpositive : N -> bool.

#[export] Instance Number_Z : Number Z := fun v => v <=? 0.
#[export] Instance Number_R : Number R := fun v => Rleb v 0.

(** [Math.floor] of a quotient of integers, [Math.round] (half-way cases
    go up) and truncation towards zero. *)
Definition Math_floor (q : Q) : Z := Qfloor q.
Definition Math_round (x : R) : Z := Int_part (x + / 2).
Definition trunc (x : R) : Z :=
  if Rle_dec 0 x then Int_part x else - Int_part (- x).

(** The [%] operator on numbers: the remainder has the sign of the dividend. *)
Definition rem (x y : R) : R := (x - y * IZR (trunc (x / y)))%R.

(** [Math.atan2 (y, x)], the angle of the point [(x, y)], in (-PI, PI]. *)
Definition Math_atan2 (y x : R) : R :=
  if Rlt_dec 0 x then atan (y / x)
  else if Rlt_dec x 0 then
         if Rle_dec 0 y then (atan (y / x) + PI)%R else (atan (y / x) - PI)%R
  else if Rlt_dec 0 y then (PI / 2)%R
  else if Rlt_dec y 0 then (- PI / 2)%R
  else 0%R.

(** A number as far as the range of the doubles goes: a finite value,
    an infinity, or NaN.  It is the type of the results that can leave
    the range (the hazard-zone radii). *)
Inductive Double : Type :=
| Finite (x : R)
| PlusInfinity
| MinusInfinity
| NotANumber.

(** A result of magnitude [2^1024 - 2^970] or more rounds to an
    infinity, one of magnitude [2^-1075] or less rounds to zero. *)
Definition overflowAt : R := IZR (2 ^ 1024 - 2 ^ 970).
Definition underflowAt : R := / IZR (2 ^ 1075).

(** The double an operation returns for the exact result [x]; the
    rounding of a result that stays inside the range is left out. *)
Definition toDouble (x : R) : Double :=
  if Rle_dec overflowAt x then PlusInfinity
  else if Rle_dec x (- overflowAt) then MinusInfinity
  else if Rle_dec (Rabs x) underflowAt then Finite 0
  else Finite x.

(** An infinity times the finite number [x]. *)
Definition timesInfinity (positive : bool) (x : R) : Double :=
  if Rlt_dec 0 x then (if positive then PlusInfinity else MinusInfinity)
  else if Rlt_dec x 0 then (if positive then MinusInfinity else PlusInfinity)
  else NotANumber.

(** [a * b] *)
Definition times (a b : Double) : Double :=
  match a, b with
  | NotANumber, _ | _, NotANumber => NotANumber
  | Finite x, Finite y => toDouble (x * y)
  | Finite x, PlusInfinity | PlusInfinity, Finite x => timesInfinity true x
  | Finite x, MinusInfinity | MinusInfinity, Finite x => timesInfinity false x
  | PlusInfinity, PlusInfinity | MinusInfinity, MinusInfinity => PlusInfinity
  | PlusInfinity, MinusInfinity | MinusInfinity, PlusInfinity => MinusInfinity
  end.

(** [a < b] *)
Definition lessThan (a b : Double) : bool :=
  match a, b with
  | NotANumber, _ | _, NotANumber => false
  | Finite x, Finite y => Rltb x y
  | _, MinusInfinity => false
  | MinusInfinity, _ => true
  | PlusInfinity, _ => false
  | Finite _, PlusInfinity => true
  end.

(** [Math.pow (x, y)] for a positive base [x] and a finite [y]. *)
Definition Math_pow (x y : R) : Double := toDouble (Rpower x y).

Section ArraySort.
Context {A N : Type} `{Number N}.
Variable compareFn : A -> A -> N.

(** [Array.prototype.sort] is stable: an element moves in front of
    another one only when the comparator is positive on the pair.
    Insertion from the right is such a sort. *)
Fixpoint sort_insert (x : A) (l : list A) : list A :=
  match l with
  | [] => [x]
  | y :: l' =>
      if nonpositive (compareFn x y) then x :: l
      else y :: sort_insert x l'
  end.

Definition Array_sort (l : list A) : list A :=
  fold_right sort_insert [] l.

(** The comparator lets [a] stay in front of [b]. *)
Definition inOrder (a b : A) : Prop := nonpositive (compareFn a b) = true.
End ArraySort.

End JS.

Import JS.

(** ** Earthquake records *)

(** The record of the catalog service, with the two fields the radius
    filter adds; [None] is an absent ([undefined]) field.  [time] holds
    the time value of [new Date(eq.time)], a valid date. *)
Record Earthquake := mkEarthquake {
  id : string;
  magnitude : R;
  latitude : R;
  longitude : R;
  depth : R;
  place : string;
  time : Z;
  distance : option R;
  direction : option string
}.

(** [{...eq, distance: d, direction: dir}] *)
Definition with_distance (eq : Earthquake) (d : R) (dir : option string)
  : Earthquake :=
  {| id := id eq; magnitude := magnitude eq; latitude := latitude eq;
     longitude := longitude eq; depth := depth eq; place := place eq;
     time := time eq; distance := Some d; direction := dir |}.

(** ** Distance and direction *)

#[local] Open Scope R_scope.

(** Haversine formula; the result is in km. *)
Definition calculateDistance (lat1 lon1 lat2 lon2 : R) : R :=
  let R_earth := 6371 in
  let dLat := (lat2 - lat1) * PI / 180 in
  let dLon := (lon2 - lon1) * PI / 180 in
  let a :=
    sin (dLat / 2) * sin (dLat / 2) +
    cos (lat1 * PI / 180) * cos (lat2 * PI / 180) *
    sin (dLon / 2) * sin (dLon / 2) in
  let c := 2 * Math_atan2 (sqrt a) (sqrt (1 - a)) in
  R_earth * c.

Definition directions : list string :=
  ["N"; "NE"; "E"; "SE"; "S"; "SW"; "W"; "NW"]%string.

Definition bearing (lat1 lon1 lat2 lon2 : R) : R :=
  let dLon := lon2 - lon1 in
  let y := sin dLon * cos lat2 in
  let x := cos lat1 * sin lat2 - sin lat1 * cos lat2 * cos dLon in
  Math_atan2 y x * 180 / PI.

Definition direction_index (lat1 lon1 lat2 lon2 : R) : Z :=
  Z.rem (Math_round (rem (bearing lat1 lon1 lat2 lon2 + 360) 360 / 45)) 8.

#[local] Close Scope R_scope.

(** [directions[index]]: [None] is the [undefined] of an index outside
    the array. *)
Definition array_get {A : Type} (l : list A) (i : Z) : option A :=
  if (i <? 0)%Z then None else nth_error l (Z.to_nat i).

Definition getDirection (lat1 lon1 lat2 lon2 : R) : option string :=
  array_get directions (direction_index lat1 lon1 lat2 lon2).

(** ** Radius filter *)

Definition within (radiusKm : R) (eq : Earthquake) : bool :=
  match distance eq with
  | Some d => Rleb d radiusKm
  | None => false
  end.

(** Most recent first: [new Date(b.time) - new Date(a.time)]. *)
Definition byTimeDesc (a b : Earthquake) : Z := time b - time a.

Definition filterEarthquakesByRadius
  (earthquakes : list Earthquake) (lat lon radiusKm : R) : list Earthquake :=
  Array_sort byTimeDesc
    (filter (within radiusKm)
       (map (fun eq =>
               with_distance eq
                 (calculateDistance lat lon (latitude eq) (longitude eq))
                 (getDirection lat lon (latitude eq) (longitude eq)))
          earthquakes)).

(** What the [map] of the filter makes of one event. *)
Definition located (lat lon : R) (eq : Earthquake) : Earthquake :=
  with_distance eq
    (calculateDistance lat lon (latitude eq) (longitude eq))
    (getDirection lat lon (latitude eq) (longitude eq)).

(** ** Before and after the mainshock *)

Record BeforeAfter := mkBeforeAfter {
  before : list Earthquake;
  after : list Earthquake
}.

(** One step of the [reduce]: [push] appends to the end of its array. *)
Definition separate_step (mainshockTime : Z) (mainshockId : string)
  (acc : BeforeAfter) (eq : Earthquake) : BeforeAfter :=
  if String.eqb (id eq) mainshockId then acc
  else if time eq <? mainshockTime
       then {| before := before acc ++ [eq]; after := after acc |}
       else {| before := before acc; after := after acc ++ [eq] |}.

Definition separateBeforeAfter
  (earthquakes : list Earthquake) (mainshockTime : Z) (mainshockId : string)
  : BeforeAfter :=
  fold_left (separate_step mainshockTime mainshockId) earthquakes
    {| before := []; after := [] |}.

(** The events that are not the mainshock itself. *)
Definition others (mainshockId : string) (earthquakes : list Earthquake)
  : list Earthquake :=
  filter (fun eq => negb (String.eqb (id eq) mainshockId)) earthquakes.

(** ** Foreshocks *)

Definition sevenDaysMs : Z := 7 * 24 * 60 * 60 * 1000.

Definition sevenDaysBefore (mainshockTime : Z) : Z :=
  mainshockTime - sevenDaysMs.

(** Strongest first: [b.magnitude - a.magnitude]. *)
Definition byMagnitudeDesc (a b : Earthquake) : R :=
  (magnitude b - magnitude a)%R.

Definition isForeshock (mainshockTime : Z) (eq : Earthquake) : bool :=
  (sevenDaysBefore mainshockTime <=? time eq) && Rleb 3.5 (magnitude eq).

Definition identifyForeshocks
  (beforeEarthquakes : list Earthquake) (mainshockTime : Z)
  : list Earthquake :=
  firstn 5
    (Array_sort byMagnitudeDesc
       (filter (isForeshock mainshockTime) beforeEarthquakes)).

(** The foreshocks in the words of the specification: in the week
    [T - 7 days, T) before the mainshock, of magnitude 3.5 or more. *)
Definition foreshockCandidate (mainshockTime : Z) (eq : Earthquake) : bool :=
  (mainshockTime - 7 * 86400000 <=? time eq) && (time eq <? mainshockTime)
  && Rleb 3.5 (magnitude eq).

(** ** Heatmaps *)

Definition msPerDay : Z := 1000 * 60 * 60 * 24.

(** [(later - earlier) / (1000 * 60 * 60 * 24)] *)
Definition daysBetween (later earlier : Z) : Q :=
  (inject_Z (later - earlier) / inject_Z msPerDay)%Q.

(** [heatmap[i]++] at an index inside the array (the callers guard it). *)
Fixpoint increment (i : nat) (heatmap : list nat) : list nat :=
  match heatmap, i with
  | [], _ => []
  | n :: rest, O => S n :: rest
  | n :: rest, S i' => n :: increment i' rest
  end.

(** The body of the [forEach] of both heatmap builders. *)
Definition heatmap_step (reference : Z) (heatmap : list nat)
  (eq : Earthquake) : list nat :=
  let daysAgo := Math_floor (daysBetween reference (time eq)) in
  if (0 <=? daysAgo) && (daysAgo <? 7)
  then increment (Z.to_nat (6 - daysAgo)) heatmap
  else heatmap.

(** [now] is the value of the [new Date()] the function starts with. *)
Definition generateHeatmapData (now : Z) (earthquakes : list Earthquake)
  : list nat :=
  fold_left (heatmap_step now) earthquakes (repeat O 7).

Definition generateBeforeHeatmap
  (earthquakes : list Earthquake) (mainshockTime : Z) : list nat :=
  fold_left (heatmap_step mainshockTime) earthquakes (repeat O 7).

(** The total of a heatmap. *)
Definition total (heatmap : list nat) : nat := fold_right Nat.add O heatmap.

(** The events a heatmap with reference time [reference] counts: those
    less than 7 whole days before it, and not after it. *)
Definition bucketed (reference : Z) (eq : Earthquake) : bool :=
  (reference - sevenDaysMs <? time eq) && (time eq <=? reference).

(** ** Activity levels *)

Record ActivityLevel := mkActivityLevel {
  level : string;
  color : string;
  icon : string;
  bgColor : string
}.

Definition HIGH : ActivityLevel :=
  {| level := "HIGH"; color := "#dc2626"; icon := "🔴";
     bgColor := "#fee2e2" |}.
Definition ELEVATED : ActivityLevel :=
  {| level := "ELEVATED"; color := "#f59e0b"; icon := "🟠";
     bgColor := "#fef3c7" |}.
Definition MODERATE : ActivityLevel :=
  {| level := "MODERATE"; color := "#fbbf24"; icon := "🟡";
     bgColor := "#fef9c3" |}.
Definition LOW : ActivityLevel :=
  {| level := "LOW"; color := "#10b981"; icon := "🟢";
     bgColor := "#d1fae5" |}.

(** [a > b] *)
Definition Rgtb (a b : R) : bool := Rltb b a.

(** The level of the real-time card (around a location). *)
Definition getActivityLevel (count7d avgMag7d : R) : ActivityLevel :=
  if Rgtb count7d 50 || Rgtb avgMag7d 5.5 then HIGH
  else if Rgtb count7d 25 || Rgtb avgMag7d 5.0 then ELEVATED
  else if Rgtb count7d 10 || Rgtb avgMag7d 4.5 then MODERATE
  else LOW.

(** The level of the week before a mainshock. *)
Definition getBeforeActivityLevel (count avgMag : R) : ActivityLevel :=
  if Rgtb count 25 || Rgtb avgMag 4.5 then HIGH
  else if Rgtb count 15 || Rgtb avgMag 4.0 then ELEVATED
  else if Rgtb count 5 then MODERATE
  else LOW.

(** ** Hazard zones *)

Record HazardZones := mkHazardZones {
  critical : Double;
  high : Double;
  moderate : Double
}.

Definition calculateHazardZones (magnitude : R) : HazardZones :=
  let baseRadius :=
    times (Math_pow 10 (magnitude - 2)) (Finite 1000) in
  {| critical := times baseRadius (Finite 0.3);
     high := times baseRadius (Finite 0.6);
     moderate := times baseRadius (Finite 1.0) |}.

(** ** The two activity cards *)

(** [arr.reduce((sum, eq) => sum + eq.magnitude, 0) / count], or 0 for an
    empty array. *)
Definition averageMagnitude (l : list Earthquake) : R :=
  match l with
  | [] => 0%R
  | _ => (fold_left (fun sum eq => sum + magnitude eq) l 0
          / INR (List.length l))%R
  end.

Module RealTimeActivityCard.

(** Events at most 7 days older than [now]. *)
Definition last7Days (now : Z) (nearby : list Earthquake)
  : list Earthquake :=
  filter (fun eq => Qle_bool (daysBetween now (time eq)) 7) nearby.

Record Card := mkCard {
  count7d : nat;
  activityLevel : ActivityLevel;
  heatmapData : list nat
}.

(** [now] is the clock when the card starts, [now'] the clock read
    again inside [generateHeatmapData]. *)
Definition render (now now' : Z) (lat lon : R)
  (allEarthquakes : list Earthquake) : Card :=
  let nearbyEarthquakes :=
    filterEarthquakesByRadius allEarthquakes lat lon 500 in
  let week := last7Days now nearbyEarthquakes in
  {| count7d := List.length week;
     activityLevel :=
       getActivityLevel (INR (List.length week)) (averageMagnitude week);
     heatmapData := generateHeatmapData now' week |}.

End RealTimeActivityCard.

Module EarthquakeActivityCard.

(** 500 km to 1500 km. *)
Definition getMagnitudeBasedRadius (magnitude : R) : R :=
  Rmax 500 (Rmin 1500 (magnitude * 100)).

Definition before7d (mainshockTime : Z) (beforeEarthquakes : list Earthquake)
  : list Earthquake :=
  filter (fun eq => sevenDaysBefore mainshockTime <=? time eq)
    beforeEarthquakes.

Record Card := mkCard {
  countBefore : nat;
  countAfter : nat;
  foreshocks : list Earthquake;
  beforeActivityLevel : ActivityLevel;
  heatmapData : list nat
}.

Definition render (earthquake : Earthquake)
  (allEarthquakes : list Earthquake) : Card :=
  let radius := getMagnitudeBasedRadius (magnitude earthquake) in
  let nearbyEarthquakes :=
    filterEarthquakesByRadius allEarthquakes
      (latitude earthquake) (longitude earthquake) radius in
  let split :=
    separateBeforeAfter nearbyEarthquakes (time earthquake) (id earthquake) in
  let week := before7d (time earthquake) (before split) in
  {| countBefore := List.length week;
     countAfter := List.length (after split);
     foreshocks := identifyForeshocks (before split) (time earthquake);
     beforeActivityLevel :=
       getBeforeActivityLevel (INR (List.length week)) (averageMagnitude week);
     heatmapData := generateBeforeHeatmap week (time earthquake) |}.

End EarthquakeActivityCard.

(** ** Handlers: state, exceptions and the outside world *)

Module Effect.

(** How a block ends: normally, or by throwing. *)
Inductive Completion (A : Type) : Type :=
| Normal (a : A)
| Throw (err : string).
Arguments Normal {A} a.
Arguments Throw {A} err.

Definition M (W A : Type) : Type := W -> Completion A * W.

Definition ret {W A : Type} (a : A) : M W A := fun w => (Normal a, w).

Definition bind {W A B : Type} (m : M W A) (k : A -> M W B) : M W B :=
  fun w =>
    match m w with
    | (Normal a, w') => k a w'
    | (Throw err, w') => (Throw err, w')
    end.

Definition get {W : Type} : M W W := fun w => (Normal w, w).

Definition modify {W : Type} (f : W -> W) : M W unit :=
  fun w => (Normal tt, f w).

(** [try { body } catch (err) { handler } finally { finalizer }] *)
Definition try_catch_finally {W : Type}
  (body : M W unit) (handler : string -> M W unit) (finalizer : M W unit)
  : M W unit :=
  fun w =>
    let (r1, w1) := body w in
    let (r2, w2) :=
      match r1 with
      | Normal a => (Normal a, w1)
      | Throw err => handler err w1
      end in
    let (r3, w3) := finalizer w2 in
    match r3 with
    | Normal _ => (r2, w3)
    | Throw err => (Throw err, w3)
    end.

Module Notations.
Notation "x <- m ;; k" := (bind m (fun x => k))
  (at level 61, m at next level, right associativity).
Notation "m ;; k" := (bind m (fun _ => k))
  (at level 61, right associativity).
End Notations.

(** What the remote service does with a request. *)
Inductive Outcome (D : Type) : Type :=
| Resolved (data : D)
| Rejected (err : string).
Arguments Resolved {D} data.
Arguments Rejected {D} err.

(** A component in its environment: its state, the requests it has
    sent so far and what it wrote to the console. *)
Record World (S Q : Type) := mkWorld {
  ui : S;
  sent : list Q;
  console : list string
}.
Arguments mkWorld {S Q}.
Arguments ui {S Q}.
Arguments sent {S Q}.
Arguments console {S Q}.

Definition setState {S Q : Type} (f : S -> S) : M (World S Q) unit :=
  modify (fun w => mkWorld (f (ui w)) (sent w) (console w)).

Definition console_error {S Q : Type} (msg : string) : M (World S Q) unit :=
  modify (fun w => mkWorld (ui w) (sent w) (console w ++ [msg])).

(** [await] of a call to the service.  [network n q] is the outcome of
    request [q] when [n] requests were sent before it. *)
Definition request {S Q D : Type} (network : nat -> Q -> Outcome D) (q : Q)
  : M (World S Q) D :=
  fun w =>
    let w' := mkWorld (ui w) (sent w ++ [q]) (console w) in
    match network (List.length (sent w)) q with
    | Resolved data => (Normal data, w')
    | Rejected err => (Throw err, w')
    end.

End Effect.

(** *** The home page: [loadEarthquakes] *)

Module Home.
Import Effect Effect.Notations.

Record Location := mkLocation {
  name : string;
  loc_latitude : R;
  loc_longitude : R
}.

Record State := mkState {
  earthquakes : list Earthquake;
  searchedLocation : option Location;
  timeFilter : Z;
  loading : bool;
  error : option string;
  mapCenter : R * R;
  mapZoom : Z;
  userLocation : option (R * R)
}.

Definition setEarthquakes (v : list Earthquake) (s : State) : State :=
  mkState v (searchedLocation s) (timeFilter s) (loading s) (error s)
    (mapCenter s) (mapZoom s) (userLocation s).
Definition setLoading (v : bool) (s : State) : State :=
  mkState (earthquakes s) (searchedLocation s) (timeFilter s) v (error s)
    (mapCenter s) (mapZoom s) (userLocation s).
Definition setError (v : option string) (s : State) : State :=
  mkState (earthquakes s) (searchedLocation s) (timeFilter s) (loading s) v
    (mapCenter s) (mapZoom s) (userLocation s).
Definition setMapCenter (v : R * R) (s : State) : State :=
  mkState (earthquakes s) (searchedLocation s) (timeFilter s) (loading s)
    (error s) v (mapZoom s) (userLocation s).
Definition setMapZoom (v : Z) (s : State) : State :=
  mkState (earthquakes s) (searchedLocation s) (timeFilter s) (loading s)
    (error s) (mapCenter s) v (userLocation s).

(** [fetchRecentEarthquakes (days, minMagnitude)] *)
Record Request := mkRequest { days : Z; minMagnitude : R }.

(** The body of the answer; [None] is an absent [earthquakes] field. *)
Record Response := mkResponse { res_earthquakes : option (list Earthquake) }.

Definition isNull {A : Type} (o : option A) : bool :=
  match o with Some _ => false | None => true end.

Section Handler.
Variable network : nat -> Request -> Outcome Response.

Definition fetchRecentEarthquakes (days : Z) (minMagnitude : R)
  : M (World State Request) Response :=
  request network (mkRequest days minMagnitude).

Definition loadEarthquakes : M (World State Request) unit :=
  w <- get ;;
  let render := ui w in
  setState (setLoading true) ;;
  setState (setError None) ;;
  try_catch_finally
    (data <- fetchRecentEarthquakes (timeFilter render) 4.0 ;;
     setState (setEarthquakes
                 (match res_earthquakes data with
                  | Some l => l
                  | None => []
                  end)) ;;
     match res_earthquakes data with
     | Some (latest :: _) =>
         if isNull (userLocation render)
            && isNull (searchedLocation render)
         then
           setState (setMapCenter (latitude latest, longitude latest)) ;;
           setState (setMapZoom 5)
         else ret tt
     | _ => ret tt
     end)
    (fun err =>
       setState (setError
                   (Some "Failed to load earthquakes. Please try again."%string)) ;;
       console_error err)
    (setState (setLoading false)).
End Handler.

End Home.

(** *** The detail panel: [fetchPredictions] *)

Module DetailPanel.
Import Effect Effect.Notations.

Section Panel.
(** The forecast of the prediction service, which the panel only
    stores and shows. *)
Context {Predictions : Type}.

Record State := mkState {
  predictions : option Predictions;
  loading : bool;
  error : option string;
  exporting : bool
}.

Definition setPredictions (v : option Predictions) (s : State) : State :=
  mkState v (loading s) (error s) (exporting s).
Definition setLoading (v : bool) (s : State) : State :=
  mkState (predictions s) v (error s) (exporting s).
Definition setError (v : option string) (s : State) : State :=
  mkState (predictions s) (loading s) v (exporting s).

(** [predictAftershocks (magnitude, latitude, longitude)] *)
Record Request := mkRequest {
  req_magnitude : R;
  req_latitude : R;
  req_longitude : R
}.

Record Response := mkResponse { res_predictions : option Predictions }.

Variable network : nat -> Request -> Outcome Response.

Definition predictAftershocks (magnitude latitude longitude : R)
  : M (World State Request) Response :=
  request network (mkRequest magnitude latitude longitude).

Definition fetchPredictions (earthquake : Earthquake)
  : M (World State Request) unit :=
  setState (setLoading true) ;;
  setState (setError None) ;;
  try_catch_finally
    (response <- predictAftershocks (magnitude earthquake)
                   (latitude earthquake) (longitude earthquake) ;;
     setState (setPredictions (res_predictions response)))
    (fun err =>
       setState (setError (Some "Failed to load predictions"%string)) ;;
       console_error err)
    (setState (setLoading false)).
End Panel.
Arguments State : clear implicits.
Arguments Request : clear implicits.
Arguments Response : clear implicits.

End DetailPanel.

(** ** The search box and its debounce timer *)

Module SearchBar.

(** Strings are ASCII text: [length] counts characters and [trim]
    removes the blanks at both ends. *)
Definition isBlank (c : Ascii.ascii) : bool :=
  let n := Ascii.nat_of_ascii c in
  (n =? 32)%nat || ((9 <=? n)%nat && (n <=? 13)%nat).

Fixpoint trimStart (s : string) : string :=
  match s with
  | EmptyString => EmptyString
  | String c rest => if isBlank c then trimStart rest else s
  end.

Fixpoint trimEnd (s : string) : string :=
  match s with
  | EmptyString => EmptyString
  | String c rest =>
      match trimEnd rest with
      | EmptyString => if isBlank c then EmptyString else String c EmptyString
      | rest' => String c rest'
      end
  end.

Definition trim (s : string) : string := trimEnd (trimStart s).

(** A timeout the browser holds: its handle, the earliest time (ms)
    at which its callback may run, and the query the callback
    [() => fetchSuggestions(searchQuery)] closed over. *)
Record Timer := mkTimer {
  handle : nat;
  due : Z;
  argument : string
}.

(** A geocoding request: when it was sent, and for which text. *)
Record Request := mkRequest {
  sentAt : Z;
  text : string
}.

Record State := mkState {
  searchQuery : string;
  loading : bool;
  error : option string;
  suggestionsCleared : nat;      (* calls of [setSuggestions([])] *)
  debounceTimer : option nat;    (* [debounceTimer.current] *)
  timers : list Timer;           (* pending timeouts of the effect *)
  nextHandle : nat;
  clock : Z;
  requests : list Request
}.

Definition delay : Z := 300.

(** The pending timeouts other than [h]. *)
Definition without (h : nat) (pending : list Timer) : list Timer :=
  filter (fun tm => negb (handle tm =? h)%nat) pending.

(** [clearTimeout (h)]: forgets the timeout, if it is still pending. *)
Definition clearTimeout (h : nat) (s : State) : State :=
  mkState (searchQuery s) (loading s) (error s) (suggestionsCleared s)
    (debounceTimer s) (without h (timers s))
    (nextHandle s) (clock s) (requests s).

(** A timeout that runs is no longer pending. *)
Definition expire (h : nat) (s : State) : State :=
  mkState (searchQuery s) (loading s) (error s) (suggestionsCleared s)
    (debounceTimer s) (without h (timers s))
    (nextHandle s) (clock s) (requests s).

(** [debounceTimer.current = setTimeout (callback, ms)] *)
Definition setTimeout (query : string) (ms : Z) (s : State) : State :=
  mkState (searchQuery s) (loading s) (error s) (suggestionsCleared s)
    (Some (nextHandle s))
    (timers s ++ [mkTimer (nextHandle s) (clock s + ms) query])
    (S (nextHandle s)) (clock s) (requests s).

Definition clearSuggestions (s : State) : State :=
  mkState (searchQuery s) (loading s) (error s) (S (suggestionsCleared s))
    (debounceTimer s) (timers s) (nextHandle s) (clock s) (requests s).

(** [if (debounceTimer.current) clearTimeout (debounceTimer.current)];
    handles start at 1, so a handle is never falsy. *)
Definition clearPending (s : State) : State :=
  match debounceTimer s with
  | Some h => clearTimeout h s
  | None => s
  end.

(** The effect on [searchQuery]: its body, run after a render that
    changed the query. *)
Definition effect (s : State) : State :=
  let s1 := clearPending s in
  if (3 <=? String.length (trim (searchQuery s1)))%nat
  then setTimeout (searchQuery s1) delay s1
  else clearSuggestions s1.

(** The clean-up the effect returned, run before the next effect. *)
Definition cleanup (s : State) : State := clearPending s.

(** [fetchSuggestions (query)] up to its [await fetch (url)]: the
    request leaves here; what follows the [await] only writes
    [suggestions], [error] and [loading]. *)
Definition fetchSuggestions (query : string) (s : State) : State :=
  if (String.length query <? 3)%nat then clearSuggestions s
  else
    mkState (searchQuery s) true None (suggestionsCleared s)
      (debounceTimer s) (timers s) (nextHandle s) (clock s)
      (requests s ++ [mkRequest (clock s) query]).

(** What happens to the component.  [Change t q]: at time [t] the
    input changes to the different text [q] ([setSearchQuery] from a
    keystroke, the clear button or a picked suggestion).  [Timeout t h]:
    at time [t] the browser runs the callback of timeout [h]. *)
Inductive Event : Type :=
| Change (t : Z) (q : string)
| Timeout (t : Z) (h : nat).

Definition setClock (t : Z) (s : State) : State :=
  mkState (searchQuery s) (loading s) (error s) (suggestionsCleared s)
    (debounceTimer s) (timers s) (nextHandle s) t (requests s).

Definition setSearchQuery (q : string) (s : State) : State :=
  mkState q (loading s) (error s) (suggestionsCleared s)
    (debounceTimer s) (timers s) (nextHandle s) (clock s) (requests s).

(** One event; [None] when the event cannot happen in this state: time
    does not go back, a change is to a different text, and a timeout
    runs only if it is pending and due. *)
Definition step (s : State) (e : Event) : option State :=
  match e with
  | Change t q =>
      if (clock s <=? t) && negb (String.eqb q (searchQuery s))
      then Some (effect (setSearchQuery q (cleanup (setClock t s))))
      else None
  | Timeout t h =>
      if clock s <=? t then
        match find (fun tm => (handle tm =? h)%nat) (timers s) with
        | Some tm =>
            if due tm <=? t
            then Some (fetchSuggestions (argument tm)
                         (expire h (setClock t s)))
            else None
        | None => None
        end
      else None
  end.

Fixpoint run (s : State) (events : list Event) : option State :=
  match events with
  | [] => Some s
  | e :: rest =>
      match step s e with
      | Some s' => run s' rest
      | None => None
      end
  end.

(** The component once mounted at time [t0]: the first effect ran on
    the empty query. *)
Definition mounted (t0 : Z) : State :=
  effect (mkState EmptyString false None O None [] 1%nat t0 []).

(** No change of the input in the [delay] ms before [t]. *)
Definition quietBefore (t : Z) (e : Event) : Prop :=
  match e with
  | Change t' _ => t' + delay <= t
  | Timeout _ _ => True
  end.

(** A change of the input no later than [t]. *)
Definition notAfter (t : Z) (e : Event) : Prop :=
  match e with
  | Change t' _ => t' <= t
  | Timeout _ _ => True
  end.

(** The text of the input after a sequence of events. *)
Definition queryAfter (events : list Event) : string :=
  fold_left (fun q e => match e with Change _ q' => q' | Timeout _ _ => q end)
    events EmptyString.

(** A request sent by a timeout that ran after [delay] ms without a
    change, for the text the input had then. *)
Definition debounced (events : list Event) (r : Request) : Prop :=
  exists pre h post,
    events = pre ++ Timeout (sentAt r) h :: post /\
    Forall (quietBefore (sentAt r)) pre /\
    text r = queryAfter pre.

(** What holds of the component after the events [past]. *)
Record Invariant (past : list Event) (s : State) : Prop := mkInvariant {
  inv_clock : Forall (notAfter (clock s)) past;
  inv_query : searchQuery s = queryAfter past;
  inv_handle :
    Forall (fun tm => debounceTimer s = Some (handle tm)) (timers s);
  inv_due : Forall (fun tm => Forall (quietBefore (due tm)) past) (timers s);
  inv_argument : Forall (fun tm => argument tm = searchQuery s) (timers s);
  inv_requests : Forall (debounced past) (requests s)
}.

End SearchBar.

(** ** Sample data *)

Module Sample.

(** A mainshock on 2024-01-08T00:00:00Z and an event at the same place
    exactly seven days earlier, 2024-01-01T00:00:00Z. *)
Definition mainshock : Earthquake :=
  {| id := "us7000main"; magnitude := 5; latitude := 35; longitude := 139;
     depth := 10; place := "Honshu, Japan"; time := 1704672000000;
     distance := None; direction := None |}.

Definition weekOld : Earthquake :=
  {| id := "us7000week"; magnitude := 4; latitude := 35; longitude := 139;
     depth := 12; place := "Honshu, Japan"; time := 1704067200000;
     distance := None; direction := None |}.

Definition strong : Earthquake :=
  {| id := "us7000fore"; magnitude := 4.5; latitude := 35; longitude := 139;
     depth := 8; place := "Honshu, Japan"; time := 1704585600000;
     distance := None; direction := None |}.

(** The home page showing one event, and a detail panel showing a
    forecast (here a number of expected aftershocks). *)
Definition home : Effect.World Home.State Home.Request :=
  Effect.mkWorld
    (Home.mkState [weekOld] None 7 false None (20%R, 0%R) 2 None) [] [].

Definition panel : Effect.World (DetailPanel.State nat) DetailPanel.Request :=
  Effect.mkWorld (DetailPanel.mkState (Some 12%nat) false None false) [] [].

(** A service that is down. *)
Definition offline {Q D : Type} (n : nat) (q : Q) : Effect.Outcome D :=
  Effect.Rejected "Network Error".

(** Typing [par], then [i] 100 ms later; the timeout of the second
    keystroke runs 300 ms after it. *)
Definition typing : list SearchBar.Event :=
  [SearchBar.Change 0 "par"; SearchBar.Change 100 "pari";
   SearchBar.Timeout 400 2].

(** Typing [par], then deleting the last letter. *)
Definition deleting : list SearchBar.Event :=
  [SearchBar.Change 0 "par"; SearchBar.Change 100 "pa"].

End Sample.

(** ** The rest of the activity cards *)

(** Template literal of an integer: [`${n}`]. *)
Definition showInt (n : Z) : string :=
  DecimalString.NilZero.string_of_int (Z.to_int n).

(** The last earthquake at a location: the most recent one within 50 km. *)
Definition findLastEarthquakeHere
  (earthquakes : list Earthquake) (lat lon : R) : option Earthquake :=
  let nearby :=
    Array_sort byTimeDesc
      (filter (fun eq =>
                 Rleb (calculateDistance lat lon (latitude eq) (longitude eq))
                   50)
         earthquakes) in
  match nearby with
  | [] => None
  | first :: _ => Some first
  end.

(** [Math.max(...heatmapData, 1)] *)
Definition maxCount (heatmapData : list nat) : nat :=
  fold_right Nat.max 1%nat heatmapData.

(** The colour of a heatmap cell, the same closure in both cards. *)
Definition getHeatmapColor (maxCount count : nat) : string :=
  if (count =? 0)%nat then "#f3f4f6"
  else
    let intensity := (INR count / INR maxCount)%R in
    if Rgtb intensity 0.75 then "#dc2626"
    else if Rgtb intensity 0.5 then "#f59e0b"
    else if Rgtb intensity 0.25 then "#fbbf24"
    else "#10b981".

(** The colours from "less" to "more", as the legend shows them. *)
Definition heat (colour : string) : nat :=
  if String.eqb colour "#f3f4f6" then 0
  else if String.eqb colour "#10b981" then 1
  else if String.eqb colour "#fbbf24" then 2
  else if String.eqb colour "#f59e0b" then 3
  else 4.

(** The age of an event in whole days at a reference time. *)
Definition wholeDays (reference : Z) (eq : Earthquake) : Z :=
  (reference - time eq) / msPerDay.

(** How many events are [6 - i] whole days old, for each cell [i]. *)
Definition bucketCounts (reference : Z) (earthquakes : list Earthquake)
  : list nat :=
  map (fun i =>
         List.length
           (filter (fun eq => wholeDays reference eq =? 6 - Z.of_nat i)
              earthquakes))
    (seq 0 7).

Module RealTimeMetrics.

(** Events at most 30 days older than [now]. *)
Definition last30Days (now : Z) (nearby : list Earthquake)
  : list Earthquake :=
  filter (fun eq => Qle_bool (daysBetween now (time eq)) 30) nearby.

Definition trend (count7d count30d : nat) : string :=
  let weeklyAverage := (INR count30d / 4.3)%R in
  if Rgtb (INR count7d) (weeklyAverage * 1.2) then "increasing"
  else if Rltb (INR count7d) (weeklyAverage * 0.8) then "decreasing"
  else "stable".

(** [nearbyEarthquakes.slice(0, 3)] *)
Definition nearestEvents (nearbyEarthquakes : list Earthquake)
  : list Earthquake :=
  firstn 3 nearbyEarthquakes.

Record Metrics := mkMetrics {
  count30d : nat;
  avgMag30d : R;
  trendOf : string;
  lastHere : option Earthquake;
  nearest : list Earthquake;
  cellColours : list string
}.

(** What the real-time card computes besides its [Card]; the clock is
    read as in [RealTimeActivityCard.render]. *)
Definition render (now now' : Z) (lat lon : R)
  (allEarthquakes : list Earthquake) : Metrics :=
  let nearbyEarthquakes :=
    filterEarthquakesByRadius allEarthquakes lat lon 500 in
  let week := RealTimeActivityCard.last7Days now nearbyEarthquakes in
  let month := last30Days now nearbyEarthquakes in
  let heatmapData := generateHeatmapData now' week in
  {| count30d := List.length month;
     avgMag30d := averageMagnitude month;
     trendOf := trend (List.length week) (List.length month);
     lastHere := findLastEarthquakeHere allEarthquakes lat lon;
     nearest := nearestEvents nearbyEarthquakes;
     cellColours := map (getHeatmapColor (maxCount heatmapData)) heatmapData |}.

End RealTimeMetrics.

Definition msPerHour : Z := 1000 * 60 * 60.

Module AftershockMetrics.

(** [after.reduce((max, eq) => eq.magnitude > max.magnitude ? eq : max,
    after[0])], or [null] for no aftershock. *)
Definition largestAftershock (after : list Earthquake) : option Earthquake :=
  match after with
  | [] => None
  | first :: _ =>
      Some (fold_left
              (fun max eq =>
                 if Rgtb (magnitude eq) (magnitude max) then eq else max)
              after first)
  end.

Section TimeDifference.
(** [formatTimeAgo] of the formatters, used for the events after the
    mainshock. *)
Variable formatTimeAgo : Z -> string.

Definition plural (n : Z) : string := if 1 <? n then "s" else "".

Definition getTimeDifference (earthquakeTime mainshockTime : Z) : string :=
  let diffMs := earthquakeTime - mainshockTime in
  let diffDays :=
    Z.abs (Math_floor (inject_Z diffMs / inject_Z msPerDay)%Q) in
  let diffHours :=
    Z.abs (Math_floor (inject_Z diffMs / inject_Z msPerHour)%Q) in
  if diffMs <? 0 then
    if 0 <? diffDays
    then showInt diffDays ++ " day" ++ plural diffDays ++ " before"
    else if 0 <? diffHours
    then showInt diffHours ++ " hour" ++ plural diffHours ++ " before"
    else "Shortly before"
  else formatTimeAgo earthquakeTime.
End TimeDifference.

End AftershockMetrics.

(** The sizes of the map markers, in pixels. *)
Module EpicenterMarker.
Definition radius (mag : R) : R := Rmax 8 (Rmin 24 (mag * 4)).
Definition containerSize (mag : R) : R := Rmax 48 (radius mag * 4).
End EpicenterMarker.

Module PulsingMarker.
Definition radius (mag : R) : R := Rmax 10 (Rmin 40 (mag * 6)).
End PulsingMarker.

(** ** More handlers *)

Module Async.
Import Effect Effect.Notations.

Definition throw {W A : Type} (err : string) : M W A :=
  fun w => (Throw err, w).

(** [try { body } catch (err) { handler }] around a block with a value. *)
Definition try_catch {W A : Type} (body : M W A) (handler : string -> M W A)
  : M W A :=
  fun w =>
    match body w with
    | (Normal a, w') => (Normal a, w')
    | (Throw err, w') => handler err w'
    end.

(** [await Promise.all(items.map(async (item) => ...))] for callbacks
    that write nothing but the console: the requests leave in the order
    of the items, and the values come back in that order. *)
Fixpoint promise_all {W A B : Type} (f : A -> M W B) (items : list A)
  : M W (list B) :=
  match items with
  | [] => ret []
  | item :: rest =>
      b <- f item ;;
      bs <- promise_all f rest ;;
      ret (b :: bs)
  end.

(** Two handlers run one after the other, as by a click on "Retry". *)
Definition andThen {W : Type} (first second : M W unit) : M W unit :=
  first ;; second.

End Async.

(** *** The location panel: [fetchLocationRisk] *)

Module LocationRiskPanel.
Import Effect Effect.Notations Async.

Record Scenario := mkScenario { mag : Z; label : string }.

Definition scenarios : list Scenario :=
  [ {| mag := 4; label := "M4.0 (Light)" |};
    {| mag := 5; label := "M5.0 (Moderate)" |};
    {| mag := 6; label := "M6.0 (Strong)" |};
    {| mag := 7; label := "M7.0 (Major)" |} ].

Section Panel.
Context {Predictions ModelInfo : Type}.
(** [predictions.model_info] *)
Variable model_info : Predictions -> ModelInfo.

Record ScenarioResult := mkScenarioResult {
  sr_magnitude : Z;
  sr_label : string;
  sr_predictions : option Predictions
}.

Record RiskData := mkRiskData {
  rd_location : Home.Location;
  rd_scenarios : list ScenarioResult;
  rd_modelInfo : ModelInfo
}.

Record State := mkState {
  riskData : option RiskData;
  loading : bool;
  error : option string
}.

Definition setRiskData (v : option RiskData) (s : State) : State :=
  mkState v (loading s) (error s).
Definition setLoading (v : bool) (s : State) : State :=
  mkState (riskData s) v (error s).
Definition setError (v : option string) (s : State) : State :=
  mkState (riskData s) (loading s) v.

Variable network :
  nat -> DetailPanel.Request -> Outcome (DetailPanel.Response Predictions).

Definition requestFor (location : Home.Location) (scenario : Scenario)
  : DetailPanel.Request :=
  DetailPanel.mkRequest (IZR (mag scenario)) (Home.loc_latitude location)
    (Home.loc_longitude location).

(** The callback of the [map]: a scenario that fails is logged and
    counts as [null]. *)
Definition fetchScenario (location : Home.Location) (scenario : Scenario)
  : M (World State DetailPanel.Request) (option ScenarioResult) :=
  try_catch
    (response <- request network (requestFor location scenario) ;;
     ret (Some {| sr_magnitude := mag scenario;
                  sr_label := label scenario;
                  sr_predictions := DetailPanel.res_predictions response |}))
    (fun err =>
       console_error
         ("Error fetching scenario " ++ showInt (mag scenario) ++ ": " ++ err) ;;
       ret None).

(** [scenarioResults.filter(s => s !== null)] *)
Definition notNull {A : Type} (results : list (option A)) : list A :=
  flat_map (fun r => match r with Some a => [a] | None => [] end) results.

Definition fetchLocationRisk (location : Home.Location)
  : M (World State DetailPanel.Request) unit :=
  setState (setLoading true) ;;
  setState (setError None) ;;
  try_catch_finally
    (scenarioResults <- promise_all (fetchScenario location) scenarios ;;
     let validScenarios := notNull scenarioResults in
     match validScenarios with
     | first :: _ =>
         match sr_predictions first with
         | Some predictions =>
             setState (setRiskData
                         (Some {| rd_location := location;
                                  rd_scenarios := validScenarios;
                                  rd_modelInfo := model_info predictions |}))
         | None => throw "TypeError"
         end
     | [] =>
         setState (setError
                     (Some "Unable to calculate risk for this location"%string))
     end)
    (fun err =>
       setState (setError (Some "Failed to load risk data"%string)) ;;
       console_error err)
    (setState (setLoading false)).

(** What the service answers to the scenario sent as the [i]-th request
    after [n] earlier ones. *)
Definition answer (n : nat) (location : Home.Location)
  (i : nat) (scenario : Scenario) : option ScenarioResult :=
  match network (n + i) (requestFor location scenario) with
  | Resolved response =>
      Some {| sr_magnitude := mag scenario;
              sr_label := label scenario;
              sr_predictions := DetailPanel.res_predictions response |}
  | Rejected _ => None
  end.

(** The scenarios that were answered, in the order of the magnitudes. *)
Definition answered (n : nat) (location : Home.Location)
  : list ScenarioResult :=
  notNull (map (fun '(i, scenario) => answer n location i scenario)
             (combine (seq 0 4) scenarios)).
End Panel.
Arguments ScenarioResult : clear implicits.
Arguments RiskData : clear implicits.
Arguments State : clear implicits.

End LocationRiskPanel.

(** *** The home page: what is selected and where the map looks *)

Module HomeNavigation.

Record State := mkState {
  selectedEarthquake : option Earthquake;
  searchedLocation : option Home.Location;
  mapCenter : R * R;
  mapZoom : Z;
  showEarthquakeList : bool;
  userLocation : option (R * R)
}.

(** The state of the first render. *)
Definition initial : State :=
  mkState None None (20%R, 0%R) 2 false None.

Definition handleEarthquakeClick (earthquake : Earthquake) (s : State)
  : State :=
  mkState (Some earthquake) None
    (latitude earthquake, longitude earthquake) 7 false (userLocation s).

Definition handleLocationSearch (location : Home.Location) (s : State)
  : State :=
  mkState None (Some location)
    (Home.loc_latitude location, Home.loc_longitude location) 10 false
    (userLocation s).

Definition handleClearSearch (s : State) : State :=
  mkState (selectedEarthquake s) None (mapCenter s) (mapZoom s)
    (showEarthquakeList s) (userLocation s).

(** [onClose] of the detail panel. *)
Definition closeDetailPanel (s : State) : State :=
  mkState None (searchedLocation s) (mapCenter s) (mapZoom s)
    (showEarthquakeList s) (userLocation s).

(** The success callback of [handleLocationClick]. *)
Definition handleLocationFound (position : R * R) (s : State) : State :=
  mkState (selectedEarthquake s) (searchedLocation s) position 10
    (showEarthquakeList s) (Some position).

Definition toggleList (s : State) : State :=
  mkState (selectedEarthquake s) (searchedLocation s) (mapCenter s)
    (mapZoom s) (negb (showEarthquakeList s)) (userLocation s).

Definition closeList (s : State) : State :=
  mkState (selectedEarthquake s) (searchedLocation s) (mapCenter s)
    (mapZoom s) false (userLocation s).

Inductive Action : Type :=
| ClickEarthquake (earthquake : Earthquake)
| SearchLocation (location : Home.Location)
| ClearSearch
| CloseDetail
| Located (position : R * R)
| ToggleList
| CloseList.

Definition step (s : State) (a : Action) : State :=
  match a with
  | ClickEarthquake earthquake => handleEarthquakeClick earthquake s
  | SearchLocation location => handleLocationSearch location s
  | ClearSearch => handleClearSearch s
  | CloseDetail => closeDetailPanel s
  | Located position => handleLocationFound position s
  | ToggleList => toggleList s
  | CloseList => closeList s
  end.

Definition run (actions : list Action) : State :=
  fold_left step actions initial.

(** An earthquake and a searched place are not held together. *)
Definition consistent (s : State) : Prop :=
  selectedEarthquake s = None \/ searchedLocation s = None.

(** [selectedEarthquake && <DetailPanel>] *)
Definition showsDetailPanel (s : State) : bool :=
  negb (Home.isNull (selectedEarthquake s)).

(** [searchedLocation && !selectedEarthquake && <LocationRiskPanel>] *)
Definition showsLocationRiskPanel (s : State) : bool :=
  negb (Home.isNull (searchedLocation s)) && Home.isNull (selectedEarthquake s).

End HomeNavigation.

(** ** More of the search box *)

Module SearchBarFacts.

(** The number of changes of the input among some events. *)
Definition changes (events : list SearchBar.Event) : nat :=
  List.length
    (filter (fun e => match e with
                      | SearchBar.Change _ _ => true
                      | SearchBar.Timeout _ _ => false
                      end) events).

(** At most one timeout is pending, and the requests sent and pending
    are no more than the changes so far. *)
Definition bounded (past : list SearchBar.Event) (s : SearchBar.State)
  : Prop :=
  (List.length (SearchBar.timers s) <= 1)%nat /\
  (List.length (SearchBar.requests s) + List.length (SearchBar.timers s)
   <= changes past)%nat.

(** A text the box asks suggestions for: 3 characters or more once
    trimmed. *)
Definition longEnough (q : string) : Prop :=
  (3 <= String.length (SearchBar.trim q))%nat.

(** Timeouts and requests are only ever for such texts. *)
Definition meaningful (s : SearchBar.State) : Prop :=
  Forall (fun tm => longEnough (SearchBar.argument tm)) (SearchBar.timers s) /\
  Forall (fun r => longEnough (SearchBar.text r)) (SearchBar.requests s).

End SearchBarFacts.

(** ** More sample data *)

Module Scenario.

(** A service that answers with two events, and one that fails the
    first request only. *)
Definition online (n : nat) (q : Home.Request)
  : Effect.Outcome Home.Response :=
  Effect.Resolved (Home.mkResponse (Some [Sample.mainshock; Sample.weekOld])).

Definition flaky (n : nat) (q : Home.Request)
  : Effect.Outcome Home.Response :=
  if (n =? 0)%nat then Effect.Rejected "Network Error" else online n q.

(** A prediction service whose answer lacks the [predictions] field. *)
Definition hollow (n : nat) (q : DetailPanel.Request)
  : Effect.Outcome (DetailPanel.Response nat) :=
  Effect.Resolved (DetailPanel.mkResponse None).

End Scenario.

(** * Properties *)

(** ** Comparisons as booleans *)

Lemma Rleb_true (x y : R) : Rleb x y = true <-> (x <= y)%R.
Proof.
  unfold Rleb. destruct (Rle_dec x y); split; intros; auto; discriminate.
Qed.

Lemma Rleb_false (x y : R) : Rleb x y = false <-> (y < x)%R.
Proof.
  unfold Rleb. destruct (Rle_dec x y); split; intros; auto;
    try discriminate; lra.
Qed.

Lemma Rgtb_true (x y : R) : Rgtb x y = true <-> (x > y)%R.
Proof.
  unfold Rgtb, Rltb. destruct (Rlt_dec y x); split; intros; auto;
    try discriminate; lra.
Qed.

Lemma Rgtb_false (x y : R) : Rgtb x y = false <-> (x <= y)%R.
Proof.
  unfold Rgtb, Rltb. destruct (Rlt_dec y x); split; intros; auto;
    try discriminate; lra.
Qed.

(** ** [Array.prototype.sort] *)

Section SortFacts.
Context {A N : Type} `{Number N}.
Variable compareFn : A -> A -> N.

Lemma sort_insert_perm x l : Permutation (sort_insert compareFn x l) (x :: l).
Proof.
  induction l as [|y l IH]; simpl.
  - apply Permutation_refl.
  - destruct (nonpositive (compareFn x y)).
    + apply Permutation_refl.
    + eapply perm_trans; [apply perm_skip, IH | apply perm_swap].
Qed.

Lemma Array_sort_perm l : Permutation (Array_sort compareFn l) l.
Proof.
  induction l as [|x l IH]; simpl.
  - constructor.
  - eapply perm_trans; [apply sort_insert_perm | apply perm_skip, IH].
Qed.

Lemma Array_sort_In l x : In x (Array_sort compareFn l) <-> In x l.
Proof.
  split; apply Permutation_in;
    [apply Array_sort_perm | apply Permutation_sym, Array_sort_perm].
Qed.

Lemma Array_sort_Forall (P : A -> Prop) l :
  Forall P l -> Forall P (Array_sort compareFn l).
Proof.
  rewrite !Forall_forall. intros HP x Hx.
  apply HP. exact (proj1 (Array_sort_In l x) Hx).
Qed.

Lemma Array_sort_length l :
  List.length (Array_sort compareFn l) = List.length l.
Proof. apply Permutation_length, Array_sort_perm. Qed.

(** With a comparator that is a total preorder the result is sorted. *)
Hypothesis compare_total :
  forall a b, nonpositive (compareFn a b) = false -> inOrder compareFn b a.
Hypothesis compare_trans :
  forall a b c, inOrder compareFn a b -> inOrder compareFn b c ->
    inOrder compareFn a c.

Lemma sort_insert_sorted x l :
  StronglySorted (inOrder compareFn) l ->
  StronglySorted (inOrder compareFn) (sort_insert compareFn x l).
Proof.
  induction 1 as [|y l Hs IH Hy]; simpl.
  - repeat constructor.
  - destruct (nonpositive (compareFn x y)) eqn:E.
    + constructor; [now constructor|].
      constructor; [exact E|].
      eapply Forall_impl; [|exact Hy].
      intros z Hz. now apply compare_trans with y.
    + constructor; [exact IH|].
      apply Forall_forall. intros z Hz.
      apply (Permutation_in _ (sort_insert_perm x l)) in Hz.
      destruct Hz as [<-|Hz].
      * now apply compare_total.
      * rewrite Forall_forall in Hy. now apply Hy.
Qed.

Lemma Array_sort_sorted l : StronglySorted (inOrder compareFn) (Array_sort compareFn l).
Proof.
  induction l as [|x l IH]; simpl.
  - constructor.
  - now apply sort_insert_sorted.
Qed.
End SortFacts.

Lemma StronglySorted_impl {A : Type} (P Q : A -> A -> Prop) (l : list A) :
  (forall a b, P a b -> Q a b) -> StronglySorted P l -> StronglySorted Q l.
Proof.
  intros HPQ. induction 1 as [|x l Hs IH Hx]; constructor; auto.
  eapply Forall_impl; [|exact Hx]. intros; now apply HPQ.
Qed.

Lemma byTimeDesc_sorted (l : list Earthquake) :
  StronglySorted (fun a b => time b <= time a) (Array_sort byTimeDesc l).
Proof.
  apply StronglySorted_impl with (P := inOrder byTimeDesc).
  - unfold inOrder, nonpositive, Number_Z, byTimeDesc. intros a b Hab.
    apply Z.leb_le in Hab. lia.
  - apply Array_sort_sorted; unfold inOrder, nonpositive, Number_Z, byTimeDesc.
    + intros a b Hab. apply Z.leb_gt in Hab. apply Z.leb_le. lia.
    + intros a b c Hab Hbc. apply Z.leb_le in Hab, Hbc. apply Z.leb_le. lia.
Qed.

Lemma byMagnitudeDesc_sorted (l : list Earthquake) :
  StronglySorted (fun a b => (magnitude b <= magnitude a)%R)
    (Array_sort byMagnitudeDesc l).
Proof.
  apply StronglySorted_impl with (P := inOrder byMagnitudeDesc).
  - unfold inOrder, nonpositive, Number_R, byMagnitudeDesc. intros a b Hab.
    apply Rleb_true in Hab. lra.
  - apply Array_sort_sorted;
      unfold inOrder, nonpositive, Number_R, byMagnitudeDesc.
    + intros a b Hab. apply Rleb_false in Hab. apply Rleb_true. lra.
    + intros a b c Hab Hbc. apply Rleb_true in Hab, Hbc. apply Rleb_true. lra.
Qed.

(** ** Direction *)

Section DirectionFacts.
Local Open Scope R_scope.

Lemma Math_atan2_bounds (y x : R) : - PI < Math_atan2 y x <= PI.
Proof.
  pose proof PI_RGT_0 as Hpi.
  unfold Math_atan2.
  destruct (Rlt_dec 0 x) as [Hx|Hx].
  - pose proof (atan_bound (y / x)). lra.
  - destruct (Rlt_dec x 0) as [Hx'|Hx'].
    + pose proof (atan_bound (y / x)) as Hb.
      destruct (Rle_dec 0 y) as [Hy|Hy].
      * assert (Hq : y / x <= 0).
        { unfold Rdiv. assert (/ x < 0) by now apply Rinv_lt_0_compat. nra. }
        assert (atan (y / x) <= 0).
        { destruct Hq as [Hq|Hq].
          - apply Rlt_le. rewrite <- atan_0. now apply atan_increasing.
          - rewrite Hq, atan_0. lra. }
        lra.
      * assert (Hq : 0 < y / x).
        { unfold Rdiv. assert (/ x < 0) by now apply Rinv_lt_0_compat. nra. }
        assert (0 < atan (y / x)).
        { rewrite <- atan_0. now apply atan_increasing. }
        lra.
    + destruct (Rlt_dec 0 y); [lra|].
      destruct (Rlt_dec y 0); lra.
Qed.

Lemma bearing_bounds (lat1 lon1 lat2 lon2 : R) :
  -180 < bearing lat1 lon1 lat2 lon2 <= 180.
Proof.
  pose proof PI_RGT_0 as Hpi.
  unfold bearing. cbv zeta.
  match goal with |- context [Math_atan2 ?y ?x] =>
    pose proof (Math_atan2_bounds y x) as Hb;
    set (a := Math_atan2 y x) in *
  end.
  assert (Hinv : 0 < / PI) by now apply Rinv_0_lt_compat.
  assert (Hone : PI * / PI = 1) by (apply Rinv_r; lra).
  unfold Rdiv. split; nra.
Qed.

(** The remainder of a non-negative number by a positive one. *)
Lemma rem_bounds (x y : R) : 0 <= x -> 0 < y -> 0 <= rem x y < y.
Proof.
  intros Hx Hy. unfold rem, trunc.
  assert (Hq : 0 <= x / y).
  { unfold Rdiv. assert (0 < / y) by now apply Rinv_0_lt_compat. nra. }
  destruct (Rle_dec 0 (x / y)) as [_|Hn]; [|contradiction].
  destruct (base_Int_part (x / y)) as [Hlo Hhi].
  set (k := IZR (Int_part (x / y))) in *.
  assert (Hxy : x = y * (x / y)) by (field; lra).
  split; nra.
Qed.

Lemma Math_round_bounds (z : R) (n : Z) :
  0 <= z < IZR n -> (0 <= Math_round z <= n)%Z.
Proof.
  intros [Hlo Hhi]. unfold Math_round.
  destruct (base_Int_part (z + / 2)) as [Hle Hgt].
  split.
  - apply le_IZR. assert (-1 < IZR (Int_part (z + / 2))) by lra.
    apply Rlt_le in H. change (-1) with (IZR (-1)) in H.
    assert (Hlt : (-1 < Int_part (z + / 2))%Z) by (apply lt_IZR; simpl; lra).
    apply IZR_le. lia.
  - assert (Hlt : (Int_part (z + / 2) < n + 1)%Z).
    { apply lt_IZR. rewrite plus_IZR. simpl. lra. }
    lia.
Qed.

Lemma direction_index_bounds (lat1 lon1 lat2 lon2 : R) :
  (0 <= direction_index lat1 lon1 lat2 lon2 <= 7)%Z.
Proof.
  unfold direction_index.
  pose proof (bearing_bounds lat1 lon1 lat2 lon2) as Hb.
  set (b := bearing lat1 lon1 lat2 lon2) in *.
  destruct (rem_bounds (b + 360) 360) as [Hlo Hhi]; [lra | lra |].
  set (r := rem (b + 360) 360) in *.
  assert (Hr : (0 <= Math_round (r / 45) <= 8)%Z).
  { apply Math_round_bounds. simpl. lra. }
  destruct (Z.eq_dec (Math_round (r / 45)) 8) as [E|E].
  - rewrite E. vm_compute. split; discriminate.
  - rewrite Z.rem_small by lia. lia.
Qed.
End DirectionFacts.

Lemma array_get_directions (i : Z) :
  0 <= i <= 7 -> exists s, array_get directions i = Some s /\ In s directions.
Proof.
  intros Hi.
  assert (Hc : i = 0 \/ i = 1 \/ i = 2 \/ i = 3 \/ i = 4 \/ i = 5 \/ i = 6
               \/ i = 7) by lia.
  repeat destruct Hc as [->|Hc]; try subst i;
    (eexists; split; [reflexivity | simpl; tauto]).
Qed.

Lemma getDirection_total (lat1 lon1 lat2 lon2 : R) :
  exists s, getDirection lat1 lon1 lat2 lon2 = Some s.
Proof.
  destruct (array_get_directions (direction_index lat1 lon1 lat2 lon2))
    as [s [Hs _]]; [apply direction_index_bounds|].
  now exists s.
Qed.

(** C8. For all coordinates, [getDirection] returns one of the eight
    compass strings: the index [Math.round (((bearing + 360) % 360) / 45)
    % 8] lies in 0..7, so [directions[index]] is never [undefined]. *)
Theorem getDirection_defined (lat1 lon1 lat2 lon2 : R) :
  0 <= direction_index lat1 lon1 lat2 lon2 <= 7 /\
  exists s, getDirection lat1 lon1 lat2 lon2 = Some s /\
            In s ["N"; "NE"; "E"; "SE"; "S"; "SW"; "W"; "NW"]%string.
Proof.
  pose proof (direction_index_bounds lat1 lon1 lat2 lon2) as Hi.
  split; [exact Hi|].
  unfold getDirection. now apply array_get_directions.
Qed.

(** ** Radius filter *)

Lemma filterEarthquakesByRadius_In earthquakes lat lon radiusKm e' :
  In e' (filterEarthquakesByRadius earthquakes lat lon radiusKm) <->
  exists e, In e earthquakes /\ e' = located lat lon e /\
            (calculateDistance lat lon (latitude e) (longitude e)
             <= radiusKm)%R.
Proof.
  unfold filterEarthquakesByRadius.
  rewrite Array_sort_In, filter_In, in_map_iff. split.
  - intros [[e [<- He]] Hw]. exists e. repeat split; auto.
    unfold within in Hw. simpl in Hw. now apply Rleb_true.
  - intros [e [He [-> Hd]]]. split.
    + exists e. split; auto.
    + unfold within, located. simpl. now apply Rleb_true.
Qed.

(** C1. Every event returned by [filterEarthquakesByRadius] is an event
    of the input whose haversine distance (Earth radius 6371 km) from
    the query point is at most the radius: no event farther away than
    [radiusKm] is in the result. *)
Theorem filterEarthquakesByRadius_within
  (earthquakes : list Earthquake) (lat lon radiusKm : R) :
  Forall
    (fun e' =>
       (calculateDistance lat lon (latitude e') (longitude e') <= radiusKm)%R
       /\ ~ (calculateDistance lat lon (latitude e') (longitude e')
             > radiusKm)%R
       /\ distance e'
          = Some (calculateDistance lat lon (latitude e') (longitude e'))
       /\ exists e, In e earthquakes /\ e' = located lat lon e)
    (filterEarthquakesByRadius earthquakes lat lon radiusKm).
Proof.
  apply Forall_forall. intros e' He'.
  apply filterEarthquakesByRadius_In in He'.
  destruct He' as [e [He [-> Hd]]]. simpl.
  repeat split; try lra. now exists e.
Qed.

(** The filter loses no event within the radius. *)
Lemma filterEarthquakesByRadius_complete earthquakes lat lon radiusKm e :
  In e earthquakes ->
  (calculateDistance lat lon (latitude e) (longitude e) <= radiusKm)%R ->
  In (located lat lon e) (filterEarthquakesByRadius earthquakes lat lon radiusKm).
Proof.
  intros He Hd. apply filterEarthquakesByRadius_In. now exists e.
Qed.

(** C10. The result of [filterEarthquakesByRadius] is in non-increasing
    order of time (most recent first); each of its records is an input
    event with its seven catalog fields unchanged, and carries the
    computed [distance] and a [direction]. *)
Theorem filterEarthquakesByRadius_sorted_fields
  (earthquakes : list Earthquake) (lat lon radiusKm : R) :
  StronglySorted (fun a b => time a >= time b)
    (filterEarthquakesByRadius earthquakes lat lon radiusKm) /\
  Forall
    (fun e' =>
       exists e dir,
         In e earthquakes /\
         id e' = id e /\ magnitude e' = magnitude e /\
         latitude e' = latitude e /\ longitude e' = longitude e /\
         depth e' = depth e /\ place e' = place e /\ time e' = time e /\
         distance e'
         = Some (calculateDistance lat lon (latitude e) (longitude e)) /\
         direction e' = Some dir /\
         getDirection lat lon (latitude e) (longitude e) = Some dir)
    (filterEarthquakesByRadius earthquakes lat lon radiusKm).
Proof.
  split.
  - unfold filterEarthquakesByRadius.
    eapply StronglySorted_impl; [|apply byTimeDesc_sorted].
    simpl. intros a b Hab. lia.
  - apply Forall_forall. intros e' He'.
    apply filterEarthquakesByRadius_In in He'.
    destruct He' as [e [He [-> _]]].
    destruct (getDirection_total lat lon (latitude e) (longitude e))
      as [dir Hdir].
    exists e, dir. simpl. repeat split; auto.
Qed.

(** ** Before and after the mainshock *)

Lemma separate_fold (T : Z) (mid : string) (l : list Earthquake) :
  forall acc,
    fold_left (separate_step T mid) l acc =
    {| before := before acc ++ filter (fun e => time e <? T) (others mid l);
       after := after acc
                ++ filter (fun e => negb (time e <? T)) (others mid l) |}.
Proof.
  induction l as [|e l IH]; intros acc; simpl.
  - rewrite !app_nil_r. now destruct acc.
  - rewrite IH. unfold separate_step, others. simpl.
    destruct (String.eqb (id e) mid); simpl; [reflexivity|].
    destruct (time e <? T); simpl; now rewrite <- app_assoc.
Qed.

Lemma separateBeforeAfter_before earthquakes T mid :
  before (separateBeforeAfter earthquakes T mid)
  = filter (fun e => time e <? T) (others mid earthquakes).
Proof. unfold separateBeforeAfter. now rewrite separate_fold. Qed.

Lemma separateBeforeAfter_after earthquakes T mid :
  after (separateBeforeAfter earthquakes T mid)
  = filter (fun e => negb (time e <? T)) (others mid earthquakes).
Proof. unfold separateBeforeAfter. now rewrite separate_fold. Qed.

Lemma others_In mid l e : In e (others mid l) <-> In e l /\ id e <> mid.
Proof.
  unfold others. rewrite filter_In.
  destruct (String.eqb_spec (id e) mid); simpl; intuition congruence.
Qed.

Lemma filter_split_length {A : Type} (f : A -> bool) (l : list A) :
  (List.length (filter f l) + List.length (filter (fun x => negb (f x)) l)
   = List.length l)%nat.
Proof.
  induction l as [|x l IH]; simpl; [reflexivity|].
  destruct (f x); simpl; lia.
Qed.

(** C4. [separateBeforeAfter] puts an event in [before] iff its time is
    strictly less than the mainshock time and in [after] otherwise
    (time >= T); an event with the mainshock's id is in neither group,
    and every other event is in exactly one group. *)
Theorem separateBeforeAfter_spec
  (earthquakes : list Earthquake) (T : Z) (mainshockId : string) :
  let groups := separateBeforeAfter earthquakes T mainshockId in
  (forall e, In e (before groups) <->
             In e earthquakes /\ id e <> mainshockId /\ time e < T) /\
  (forall e, In e (after groups) <->
             In e earthquakes /\ id e <> mainshockId /\ time e >= T) /\
  (forall e, id e = mainshockId ->
             ~ In e (before groups) /\ ~ In e (after groups)) /\
  (forall e, In e earthquakes -> id e <> mainshockId ->
             (In e (before groups) /\ ~ In e (after groups)) \/
             (In e (after groups) /\ ~ In e (before groups))) /\
  (List.length (before groups) + List.length (after groups)
   = List.length (others mainshockId earthquakes))%nat.
Proof.
  intros groups.
  assert (Hb : forall e, In e (before groups) <->
                         In e earthquakes /\ id e <> mainshockId /\ time e < T).
  { intros e. unfold groups.
    rewrite separateBeforeAfter_before, filter_In, others_In, Z.ltb_lt.
    tauto. }
  assert (Ha : forall e, In e (after groups) <->
                         In e earthquakes /\ id e <> mainshockId /\ time e >= T).
  { intros e. unfold groups.
    rewrite separateBeforeAfter_after, filter_In, others_In,
      negb_true_iff, Z.ltb_ge.
    intuition lia. }
  split; [exact Hb|]. split; [exact Ha|]. split; [|split].
  - intros e Hid. split; intros Hin; [apply Hb in Hin | apply Ha in Hin];
      tauto.
  - intros e He Hid. destruct (Z_lt_ge_dec (time e) T) as [Hlt|Hge].
    + left. split; [apply Hb; tauto|].
      intros Hin. apply Ha in Hin. lia.
    + right. split; [apply Ha; tauto|].
      intros Hin. apply Hb in Hin. lia.
  - unfold groups.
    rewrite separateBeforeAfter_before, separateBeforeAfter_after.
    apply filter_split_length.
Qed.

(** ** Foreshocks *)

Lemma firstn_sorted {A : Type} (R : A -> A -> Prop) (n : nat) (l : list A) :
  StronglySorted R l -> StronglySorted R (firstn n l).
Proof.
  intros Hs. revert n.
  induction Hs as [|x l Hs IH Hx]; intros [|n]; simpl; try constructor.
  - apply IH.
  - rewrite Forall_forall in *. intros y Hy. apply Hx.
    rewrite <- (firstn_skipn n l). apply in_or_app. now left.
Qed.

Lemma firstn_above_skipn {A : Type} (R : A -> A -> Prop) (n : nat)
  (l : list A) :
  StronglySorted R l ->
  Forall (fun y => Forall (fun x => R x y) (firstn n l)) (skipn n l).
Proof.
  intros Hs. revert n.
  induction Hs as [|x l Hs IH Hx]; intros [|n]; simpl.
  - constructor.
  - constructor.
  - apply Forall_forall. intros; constructor.
  - specialize (IH n). rewrite Forall_forall in *.
    intros y Hy. constructor.
    + apply Hx. rewrite <- (firstn_skipn n l). apply in_or_app. now right.
    + now apply IH.
Qed.

Lemma isForeshock_candidate (T : Z) (l : list Earthquake) :
  Forall (fun e => time e < T) l ->
  filter (isForeshock T) l = filter (foreshockCandidate T) l.
Proof.
  intros Hl. apply filter_ext_in. intros e He.
  rewrite Forall_forall in Hl. specialize (Hl e He).
  unfold isForeshock, foreshockCandidate, sevenDaysBefore, sevenDaysMs.
  replace (time e <? T) with true by (symmetry; now apply Z.ltb_lt).
  change (7 * 24 * 60 * 60 * 1000) with (7 * 86400000).
  now rewrite andb_true_r.
Qed.

(** C5. On a list of events that precede the mainshock at time [T],
    [identifyForeshocks] returns the events of the week [T - 7 days, T)
    with magnitude >= 3.5, in descending order of magnitude, cut to the
    5 strongest: what it leaves out is no stronger than what it keeps. *)
Theorem identifyForeshocks_spec
  (beforeEarthquakes : list Earthquake) (T : Z)
  (Hbefore : Forall (fun e => time e < T) beforeEarthquakes) :
  let candidates := filter (foreshockCandidate T) beforeEarthquakes in
  let result := identifyForeshocks beforeEarthquakes T in
  result = firstn 5 (Array_sort byMagnitudeDesc candidates) /\
  StronglySorted (fun a b => (magnitude a >= magnitude b)%R) result /\
  List.length result = Nat.min 5 (List.length candidates) /\
  Forall (fun e => T - 7 * 86400000 <= time e < T
                   /\ (magnitude e >= 3.5)%R
                   /\ In e beforeEarthquakes) result /\
  exists rest,
    Permutation (result ++ rest) candidates /\
    Forall (fun r => Forall (fun e => (magnitude r <= magnitude e)%R) result)
      rest.
Proof.
  intros candidates result.
  assert (Hres : result = firstn 5 (Array_sort byMagnitudeDesc candidates)).
  { unfold result, identifyForeshocks, candidates.
    now rewrite isForeshock_candidate. }
  pose proof (byMagnitudeDesc_sorted candidates) as Hsorted.
  split; [exact Hres|]. rewrite Hres.
  split; [|split; [|split]].
  - apply firstn_sorted.
    eapply StronglySorted_impl; [|exact Hsorted]. simpl. intros; lra.
  - now rewrite length_firstn, Array_sort_length.
  - apply Forall_forall. intros e He.
    assert (He' : In e (Array_sort byMagnitudeDesc candidates)).
    { rewrite <- (firstn_skipn 5). apply in_or_app. now left. }
    apply (proj1 (Array_sort_In _ _ _)) in He'. rename He' into Hc.
    unfold candidates in Hc. apply filter_In in Hc. destruct Hc as [Hin Hc].
    unfold foreshockCandidate in Hc.
    apply andb_true_iff in Hc. destruct Hc as [Hc Hm].
    apply andb_true_iff in Hc. destruct Hc as [Hlo Hhi].
    apply Z.leb_le in Hlo. apply Z.ltb_lt in Hhi. apply Rleb_true in Hm.
    repeat split; auto; lra.
  - exists (skipn 5 (Array_sort byMagnitudeDesc candidates)). split.
    + rewrite firstn_skipn. apply Array_sort_perm.
    + now apply firstn_above_skipn.
Qed.

(** ** Activity levels *)

Ltac level_cases :=
  unfold getActivityLevel, getBeforeActivityLevel, Rgtb, Rltb;
  repeat match goal with
         | |- context [Rlt_dec ?a ?b] => destruct (Rlt_dec a b)
         end;
  simpl; intros; try reflexivity; try lra.

(** The real-time card does not call 30 events of average magnitude 4.2
    a high activity: its own threshold for [HIGH] is above 50 events. *)
Lemma getActivityLevel_30_not_HIGH :
  (30 > 25 \/ 4.2 > 4.5)%R /\
  getActivityLevel 30 4.2 = ELEVATED /\
  level (getActivityLevel 30 4.2) <> "HIGH"%string.
Proof.
  assert (H : getActivityLevel 30 4.2 = ELEVATED) by level_cases.
  split; [left; lra|]. split; [exact H|].
  rewrite H. discriminate.
Qed.

(** C3. Both classifications are step functions of the pair
    (count, average magnitude) over fixed thresholds.  For the week
    before a mainshock, count > 25 or average > 4.5 gives HIGH, then
    count > 15 or average > 4.0 gives ELEVATED, then count > 5 gives
    MODERATE, else LOW.  For the real-time card the brackets are
    50 / 5.5 for HIGH, 25 / 5.0 for ELEVATED and 10 / 4.5 for MODERATE,
    else LOW. *)
Theorem activity_level_brackets (count avgMag : R) :
  ((count > 25 \/ avgMag > 4.5 ->
    getBeforeActivityLevel count avgMag = HIGH) /\
   (count <= 25 -> avgMag <= 4.5 -> count > 15 \/ avgMag > 4.0 ->
    getBeforeActivityLevel count avgMag = ELEVATED) /\
   (count <= 15 -> avgMag <= 4.0 -> count > 5 ->
    getBeforeActivityLevel count avgMag = MODERATE) /\
   (count <= 5 -> avgMag <= 4.0 ->
    getBeforeActivityLevel count avgMag = LOW))%R /\
  ((count > 50 \/ avgMag > 5.5 ->
    getActivityLevel count avgMag = HIGH) /\
   (count <= 50 -> avgMag <= 5.5 -> count > 25 \/ avgMag > 5.0 ->
    getActivityLevel count avgMag = ELEVATED) /\
   (count <= 25 -> avgMag <= 5.0 -> count > 10 \/ avgMag > 4.5 ->
    getActivityLevel count avgMag = MODERATE) /\
   (count <= 10 -> avgMag <= 4.5 ->
    getActivityLevel count avgMag = LOW))%R.
Proof.
  repeat split; level_cases.
Qed.

(** ** Hazard zones *)

Section DoubleRange.
Local Open Scope R_scope.

Lemma overflowAt_pos : 0 < overflowAt.
Proof. unfold overflowAt. apply IZR_lt. reflexivity. Qed.

Lemma underflowAt_pos : 0 < underflowAt.
Proof.
  unfold underflowAt. apply Rinv_0_lt_compat. apply IZR_lt. reflexivity.
Qed.

Lemma toDouble_finite (x : R) :
  underflowAt < x < overflowAt -> toDouble x = Finite x.
Proof.
  intros [Hlo Hhi]. pose proof overflowAt_pos. pose proof underflowAt_pos.
  unfold toDouble.
  destruct (Rle_dec overflowAt x); [lra|].
  destruct (Rle_dec x (- overflowAt)); [lra|].
  rewrite Rabs_pos_eq by lra.
  destruct (Rle_dec x underflowAt); [lra | reflexivity].
Qed.

Lemma toDouble_overflow (x : R) : overflowAt <= x -> toDouble x = PlusInfinity.
Proof.
  intros H. unfold toDouble.
  destruct (Rle_dec overflowAt x); [reflexivity | contradiction].
Qed.

Lemma toDouble_underflow (x : R) :
  0 <= x <= underflowAt -> toDouble x = Finite 0.
Proof.
  intros [H0 H]. pose proof overflowAt_pos.
  assert (underflowAt < overflowAt).
  { unfold underflowAt, overflowAt.
    apply Rlt_trans with 1.
    - rewrite <- Rinv_1. apply Rinv_lt_contravar; [|apply IZR_lt; reflexivity].
      rewrite Rmult_1_l. apply IZR_lt. reflexivity.
    - apply IZR_lt. reflexivity. }
  unfold toDouble.
  destruct (Rle_dec overflowAt x); [lra|].
  destruct (Rle_dec x (- overflowAt)); [lra|].
  rewrite Rabs_pos_eq by lra.
  destruct (Rle_dec x underflowAt); [reflexivity | contradiction].
Qed.

(** Powers of ten with an integer exponent. *)
Lemma Rpower_10_nat (n : nat) : Rpower 10 (INR n) = IZR (10 ^ Z.of_nat n).
Proof. rewrite Rpower_pow by lra. apply pow_IZR. Qed.

Lemma Rpower_10_298 : Rpower 10 298 = IZR (10 ^ 298).
Proof.
  replace 298 with (INR 298) by (rewrite INR_IZR_INZ; reflexivity).
  apply Rpower_10_nat.
Qed.

Lemma Rpower_10_398 : Rpower 10 398 = IZR (10 ^ 398).
Proof.
  replace 398 with (INR 398) by (rewrite INR_IZR_INZ; reflexivity).
  apply Rpower_10_nat.
Qed.

Lemma Rpower_10_minus_302 : Rpower 10 (- 302) = / IZR (10 ^ 302).
Proof.
  replace (- 302) with (Ropp 302) by lra.
  rewrite Rpower_Ropp. f_equal.
  replace 302 with (INR 302) by (rewrite INR_IZR_INZ; reflexivity).
  apply Rpower_10_nat.
Qed.

Lemma Rpower_10_minus_402 : Rpower 10 (- 402) = / IZR (10 ^ 402).
Proof.
  replace (- 402) with (Ropp 402) by lra.
  rewrite Rpower_Ropp. f_equal.
  replace 402 with (INR 402) by (rewrite INR_IZR_INZ; reflexivity).
  apply Rpower_10_nat.
Qed.

(** Between magnitudes -300 and 300 the power of ten and all its
    multiples by the factors of the zones stay inside the range. *)
Lemma base_in_range (m : R) :
  -300 <= m <= 300 ->
  let p := Rpower 10 (m - 2) in
  underflowAt < p /\ p * 1000 < overflowAt.
Proof.
  intros [Hlo Hhi]. cbv zeta.
  assert (Hp_lo : Rpower 10 (- 302) <= Rpower 10 (m - 2))
    by (apply Rle_Rpower; lra).
  assert (Hp_hi : Rpower 10 (m - 2) <= Rpower 10 298)
    by (apply Rle_Rpower; lra).
  rewrite Rpower_10_minus_302 in Hp_lo. rewrite Rpower_10_298 in Hp_hi.
  split.
  - eapply Rlt_le_trans; [|exact Hp_lo].
    unfold underflowAt. apply Rinv_lt_contravar.
    + rewrite <- mult_IZR. apply IZR_lt. reflexivity.
    + apply IZR_lt. reflexivity.
  - apply Rle_lt_trans with (IZR (10 ^ 298) * 1000); [lra|].
    rewrite <- mult_IZR. unfold overflowAt. apply IZR_lt. reflexivity.
Qed.
End DoubleRange.

(** At magnitude 400 the power of ten is beyond the doubles: the three
    radii are all [Infinity], and none is less than the next.  At
    magnitude -400 they are all 0. *)
Lemma calculateHazardZones_out_of_range :
  calculateHazardZones 400
  = {| critical := PlusInfinity; high := PlusInfinity;
       moderate := PlusInfinity |} /\
  lessThan (critical (calculateHazardZones 400))
    (high (calculateHazardZones 400)) = false /\
  lessThan (high (calculateHazardZones 400))
    (moderate (calculateHazardZones 400)) = false /\
  calculateHazardZones (-400)
  = {| critical := Finite 0; high := Finite 0; moderate := Finite 0 |} /\
  lessThan (Finite 0) (critical (calculateHazardZones (-400))) = false.
Proof.
  assert (Hinf : Math_pow 10 (400 - 2) = PlusInfinity).
  { unfold Math_pow. replace (400 - 2)%R with 398%R by lra.
    apply toDouble_overflow. rewrite Rpower_10_398.
    unfold overflowAt. apply IZR_le. vm_compute. discriminate. }
  assert (Hzero : Math_pow 10 (-400 - 2) = Finite 0).
  { unfold Math_pow. replace (-400 - 2)%R with (- 402)%R by lra.
    apply toDouble_underflow. rewrite Rpower_10_minus_402. split.
    - apply Rlt_le, Rinv_0_lt_compat, IZR_lt. reflexivity.
    - unfold underflowAt. apply Rinv_le_contravar.
      + apply IZR_lt. reflexivity.
      + apply IZR_le. vm_compute. discriminate. }
  assert (H1000 : timesInfinity true 1000 = PlusInfinity).
  { unfold timesInfinity. destruct (Rlt_dec 0 1000); [reflexivity | lra]. }
  assert (H03 : timesInfinity true 0.3 = PlusInfinity).
  { unfold timesInfinity. destruct (Rlt_dec 0 0.3); [reflexivity | lra]. }
  assert (H06 : timesInfinity true 0.6 = PlusInfinity).
  { unfold timesInfinity. destruct (Rlt_dec 0 0.6); [reflexivity | lra]. }
  assert (H10 : timesInfinity true 1.0 = PlusInfinity).
  { unfold timesInfinity. destruct (Rlt_dec 0 1.0); [reflexivity | lra]. }
  assert (Hz : forall k : R, toDouble (0 * k) = Finite 0).
  { intros k. rewrite Rmult_0_l. apply toDouble_underflow.
    pose proof underflowAt_pos. lra. }
  assert (Hup : calculateHazardZones 400
                = {| critical := PlusInfinity; high := PlusInfinity;
                     moderate := PlusInfinity |}).
  { unfold calculateHazardZones. cbv zeta. rewrite Hinf. cbn [times].
    rewrite H1000. cbn [times]. now rewrite H03, H06, H10. }
  assert (Hdown : calculateHazardZones (-400)
                  = {| critical := Finite 0; high := Finite 0;
                       moderate := Finite 0 |}).
  { unfold calculateHazardZones. cbv zeta. rewrite Hzero. cbn [times].
    rewrite Hz. cbn [times]. now rewrite !Hz. }
  rewrite Hup, Hdown. cbn [critical high moderate lessThan].
  repeat split. unfold Rltb. destruct (Rlt_dec 0 0); [lra | reflexivity].
Qed.

(** C9. For every magnitude from -300 to 300 the three radii are finite,
    0.3, 0.6 and 1.0 times the base radius [10^(m-2) * 1000], strictly
    positive and strictly nested: critical < high < moderate. *)
Theorem calculateHazardZones_nested (m : R)
  (Hm : (-300 <= m <= 300)%R) :
  let zones := calculateHazardZones m in
  let baseRadius := (Rpower 10 (m - 2) * 1000)%R in
  critical zones = Finite (baseRadius * 0.3) /\
  high zones = Finite (baseRadius * 0.6) /\
  moderate zones = Finite (baseRadius * 1.0) /\
  (0 < baseRadius * 0.3 < baseRadius * 0.6)%R /\
  (baseRadius * 0.6 < baseRadius * 1.0)%R /\
  lessThan (Finite 0) (critical zones) = true /\
  lessThan (critical zones) (high zones) = true /\
  lessThan (high zones) (moderate zones) = true.
Proof.
  cbv zeta. destruct (base_in_range m Hm) as [Hlo Hhi].
  pose proof underflowAt_pos as Hu.
  set (p := Rpower 10 (m - 2)) in *.
  assert (Hbase : times (Math_pow 10 (m - 2)) (Finite 1000)
                  = Finite (p * 1000)).
  { unfold Math_pow. fold p. rewrite toDouble_finite by lra.
    cbn [times]. apply toDouble_finite. lra. }
  unfold calculateHazardZones. cbv zeta. rewrite Hbase. cbn [times].
  rewrite !toDouble_finite by lra.
  cbn [critical high moderate lessThan]. unfold Rltb.
  destruct (Rlt_dec 0 (p * 1000 * 0.3)); [|exfalso; lra].
  destruct (Rlt_dec (p * 1000 * 0.3) (p * 1000 * 0.6)); [|exfalso; lra].
  destruct (Rlt_dec (p * 1000 * 0.6) (p * 1000 * 1.0)); [|exfalso; lra].
  repeat split; lra.
Qed.

Lemma calculateHazardZones_nested_witness :
  (-300 <= 5 <= 300)%R /\
  lessThan (critical (calculateHazardZones 5)) (high (calculateHazardZones 5))
  = true.
Proof.
  assert (H : (-300 <= 5 <= 300)%R) by lra.
  split; [exact H|].
  apply (calculateHazardZones_nested 5 H).
Defined.

(** ** Heatmaps *)

Lemma daysAgo_div (reference t : Z) :
  Math_floor (daysBetween reference t) = (reference - t) / msPerDay.
Proof.
  unfold Math_floor, daysBetween, Qdiv, Qmult, Qfloor. simpl.
  now rewrite Z.mul_1_r.
Qed.

Lemma daysAgo_bucketed (reference : Z) (e : Earthquake) :
  let daysAgo := Math_floor (daysBetween reference (time e)) in
  (0 <=? daysAgo) && (daysAgo <? 7) = bucketed reference e.
Proof.
  cbv zeta. rewrite daysAgo_div. unfold bucketed, sevenDaysMs, msPerDay.
  set (d := reference - time e).
  assert (Hd : d = reference - time e) by reflexivity.
  pose proof (Z.div_pos d (1000 * 60 * 60 * 24)) as Hpos.
  pose proof (Z.div_lt_upper_bound d (1000 * 60 * 60 * 24) 7) as Hup.
  pose proof (Z.div_le_lower_bound d (1000 * 60 * 60 * 24) 7) as Hlow.
  pose proof (Z.div_lt_upper_bound d (1000 * 60 * 60 * 24) 0) as Hneg.
  destruct (Z.leb_spec 0 (d / (1000 * 60 * 60 * 24)));
    destruct (Z.ltb_spec (d / (1000 * 60 * 60 * 24)) 7);
    destruct (Z.ltb_spec (reference - 7 * 24 * 60 * 60 * 1000) (time e));
    destruct (Z.leb_spec (time e) reference);
    simpl; try reflexivity; exfalso; lia.
Qed.

Lemma increment_total (i : nat) (heatmap : list nat) :
  (i < List.length heatmap)%nat ->
  total (increment i heatmap) = S (total heatmap) /\
  List.length (increment i heatmap) = List.length heatmap.
Proof.
  revert i. induction heatmap as [|n rest IH]; intros i Hi; simpl in Hi.
  - lia.
  - destruct i as [|i]; simpl.
    + split; reflexivity.
    + destruct (IH i) as [Ht Hl]; [lia|]. rewrite Ht, Hl. split; lia.
Qed.

Lemma heatmap_step_total (reference : Z) (heatmap : list nat)
  (e : Earthquake) :
  List.length heatmap = 7%nat ->
  total (heatmap_step reference heatmap e)
  = ((if bucketed reference e then 1 else 0) + total heatmap)%nat /\
  List.length (heatmap_step reference heatmap e) = 7%nat.
Proof.
  intros Hlen. unfold heatmap_step.
  pose proof (daysAgo_bucketed reference e) as Hb. cbv zeta in Hb.
  rewrite <- Hb.
  destruct ((0 <=? Math_floor (daysBetween reference (time e)))
            && (Math_floor (daysBetween reference (time e)) <? 7)) eqn:E.
  - apply andb_true_iff in E. destruct E as [E1 E2].
    apply Z.leb_le in E1. apply Z.ltb_lt in E2.
    destruct (increment_total
                (Z.to_nat (6 - Math_floor (daysBetween reference (time e))))
                heatmap) as [Ht Hl]; [lia|].
    rewrite Ht, Hl. split; [reflexivity | exact Hlen].
  - split; [reflexivity | exact Hlen].
Qed.

Lemma heatmap_fold_total (reference : Z) (l : list Earthquake) :
  forall heatmap,
    List.length heatmap = 7%nat ->
    total (fold_left (heatmap_step reference) l heatmap)
    = (total heatmap + List.length (filter (bucketed reference) l))%nat /\
    List.length (fold_left (heatmap_step reference) l heatmap) = 7%nat.
Proof.
  induction l as [|e l IH]; intros heatmap Hlen; simpl.
  - split; [lia | exact Hlen].
  - destruct (heatmap_step_total reference heatmap e Hlen) as [Ht Hl].
    destruct (IH _ Hl) as [Ht' Hl']. rewrite Ht', Ht. split; [|exact Hl'].
    destruct (bucketed reference e); simpl; lia.
Qed.

(** The heatmap has 7 buckets and counts exactly the [bucketed] events. *)
Lemma generateBeforeHeatmap_total (l : list Earthquake) (T : Z) :
  List.length (generateBeforeHeatmap l T) = 7%nat /\
  total (generateBeforeHeatmap l T) = List.length (filter (bucketed T) l).
Proof.
  unfold generateBeforeHeatmap.
  destruct (heatmap_fold_total T l (repeat O 7)) as [Ht Hl]; [reflexivity|].
  split; [exact Hl | exact Ht].
Qed.

Lemma generateHeatmapData_total (now : Z) (l : list Earthquake) :
  List.length (generateHeatmapData now l) = 7%nat /\
  total (generateHeatmapData now l) = List.length (filter (bucketed now) l).
Proof.
  unfold generateHeatmapData.
  destruct (heatmap_fold_total now l (repeat O 7)) as [Ht Hl]; [reflexivity|].
  split; [exact Hl | exact Ht].
Qed.

(** On the week before a mainshock the heatmap misses the events that
    are exactly 7 days old, and only them. *)
Lemma before7d_heatmap_total (l : list Earthquake) (T : Z) :
  Forall (fun e => time e < T) l ->
  (total (generateBeforeHeatmap (EarthquakeActivityCard.before7d T l) T)
   + List.length (filter (fun e => (time e =? sevenDaysBefore T)%Z) l)
   = List.length (EarthquakeActivityCard.before7d T l))%nat.
Proof.
  intros Hl.
  destruct (generateBeforeHeatmap_total
              (EarthquakeActivityCard.before7d T l) T) as [_ ->].
  unfold EarthquakeActivityCard.before7d.
  induction Hl as [|e l He Hl IH]; simpl; [reflexivity|].
  unfold bucketed, sevenDaysBefore in *.
  destruct (Z.leb_spec (T - sevenDaysMs) (time e));
    destruct (Z.eqb_spec (time e) (T - sevenDaysMs)); simpl;
    try (destruct (Z.ltb_spec (T - sevenDaysMs) (time e)));
    try (destruct (Z.leb_spec (time e) T)); simpl; try lia.
Qed.

Lemma calculateDistance_same (lat lon : R) :
  calculateDistance lat lon lat lon = 0%R.
Proof.
  unfold calculateDistance. cbv zeta.
  replace ((lat - lat) * PI / 180 / 2)%R with 0%R by lra.
  replace ((lon - lon) * PI / 180 / 2)%R with 0%R by lra.
  rewrite sin_0.
  match goal with |- context [sqrt ?a] =>
    replace a with 0%R by lra
  end.
  rewrite sqrt_0.
  replace (1 - 0)%R with 1%R by lra. rewrite sqrt_1.
  unfold Math_atan2.
  destruct (Rlt_dec 0 1) as [_|Hn]; [|exfalso; lra].
  replace (0 / 1)%R with 0%R by lra. rewrite atan_0. lra.
Qed.

Lemma getMagnitudeBasedRadius_5 :
  EarthquakeActivityCard.getMagnitudeBasedRadius 5 = 500%R.
Proof.
  unfold EarthquakeActivityCard.getMagnitudeBasedRadius, Rmax, Rmin.
  destruct (Rle_dec 1500 (5 * 100)); [exfalso; lra|].
  destruct (Rle_dec 500 (5 * 100)); lra.
Qed.

Lemma sample_nearby :
  filterEarthquakesByRadius [Sample.mainshock; Sample.weekOld] 35 139 500
  = [located 35 139 Sample.mainshock; located 35 139 Sample.weekOld].
Proof.
  unfold filterEarthquakesByRadius.
  change (map _ [Sample.mainshock; Sample.weekOld])
    with [located 35 139 Sample.mainshock; located 35 139 Sample.weekOld].
  assert (Hw : forall e, latitude e = 35%R -> longitude e = 139%R ->
                         within 500 (located 35 139 e) = true).
  { intros e Hlat Hlon. unfold within, located. simpl.
    rewrite Hlat, Hlon, calculateDistance_same. apply Rleb_true. lra. }
  cbn [filter]. rewrite !Hw by reflexivity.
  reflexivity.
Qed.

(** The real-time card has the same gap: an event exactly 7 days old
    when the card is drawn counts in [count7d] and is in no bucket. *)
Lemma realtime_card_misses_week_old_event :
  let card := RealTimeActivityCard.render 1704672000000 1704672000000 35 139
                [Sample.weekOld] in
  RealTimeActivityCard.count7d card = 1%nat /\
  RealTimeActivityCard.heatmapData card = [0; 0; 0; 0; 0; 0; 0]%nat.
Proof.
  cbv zeta. unfold RealTimeActivityCard.render.
  assert (Hnear : filterEarthquakesByRadius [Sample.weekOld] 35 139 500
                  = [located 35 139 Sample.weekOld]).
  { unfold filterEarthquakesByRadius.
    change (map _ [Sample.weekOld]) with [located 35 139 Sample.weekOld].
    cbn [filter]. unfold within at 1, located at 1. simpl distance.
    change (latitude Sample.weekOld) with 35%R.
    change (longitude Sample.weekOld) with 139%R.
    rewrite calculateDistance_same.
    replace (Rleb 0 500) with true by (symmetry; apply Rleb_true; lra).
    reflexivity. }
  rewrite Hnear. unfold located, with_distance.
  generalize (calculateDistance 35 139 (latitude Sample.weekOld)
                (longitude Sample.weekOld)).
  generalize (getDirection 35 139 (latitude Sample.weekOld)
                (longitude Sample.weekOld)).
  intros dir d. cbn. split; reflexivity.
Qed.

(** C2. The card of a mainshock with one nearby event exactly seven
    days before it: the event is in the 7-day list ([countBefore] is 1),
    but the heatmap puts it in no bucket, so the bucket counts sum to 0,
    not to the length of the filtered list. *)
Theorem heatmap_misses_week_old_event :
  let card := EarthquakeActivityCard.render Sample.mainshock
                [Sample.mainshock; Sample.weekOld] in
  time Sample.mainshock - time Sample.weekOld = 7 * msPerDay /\
  EarthquakeActivityCard.countBefore card = 1%nat /\
  EarthquakeActivityCard.heatmapData card = [0; 0; 0; 0; 0; 0; 0]%nat /\
  total (EarthquakeActivityCard.heatmapData card)
  <> EarthquakeActivityCard.countBefore card.
Proof.
  cbv zeta. unfold EarthquakeActivityCard.render.
  change (magnitude Sample.mainshock) with 5%R.
  change (latitude Sample.mainshock) with 35%R.
  change (longitude Sample.mainshock) with 139%R.
  rewrite getMagnitudeBasedRadius_5, sample_nearby.
  unfold located, with_distance.
  generalize (calculateDistance 35 139 (latitude Sample.mainshock)
                (longitude Sample.mainshock)).
  generalize (calculateDistance 35 139 (latitude Sample.weekOld)
                (longitude Sample.weekOld)).
  generalize (getDirection 35 139 (latitude Sample.mainshock)
                (longitude Sample.mainshock)).
  generalize (getDirection 35 139 (latitude Sample.weekOld)
                (longitude Sample.weekOld)).
  intros dir1 dir2 d1 d2. cbn.
  repeat split; try reflexivity. discriminate.
Qed.

(** ** Failing fetches *)

Section FailingFetch.
Import Effect.

Lemma loadEarthquakes_rejected
  (network : nat -> Home.Request -> Outcome Home.Response)
  (w : World Home.State Home.Request) (err : string) :
  network (List.length (sent w))
    (Home.mkRequest (Home.timeFilter (ui w)) 4.0) = Rejected err ->
  Home.loadEarthquakes network w =
  (Normal tt,
   mkWorld
     (Home.setLoading false
        (Home.setError
           (Some "Failed to load earthquakes. Please try again."%string)
           (Home.setError None (Home.setLoading true (ui w)))))
     (sent w ++ [Home.mkRequest (Home.timeFilter (ui w)) 4.0])
     (console w ++ [err])).
Proof.
  intros Hnet.
  unfold Home.loadEarthquakes, Home.fetchRecentEarthquakes,
    try_catch_finally, bind, get, setState, console_error, modify, request.
  cbn. rewrite Hnet. reflexivity.
Qed.

Lemma fetchPredictions_rejected {Predictions : Type}
  (network : nat -> DetailPanel.Request
             -> Outcome (DetailPanel.Response Predictions))
  (earthquake : Earthquake)
  (w : World (DetailPanel.State Predictions) DetailPanel.Request)
  (err : string) :
  network (List.length (sent w))
    (DetailPanel.mkRequest (magnitude earthquake) (latitude earthquake)
       (longitude earthquake)) = Rejected err ->
  DetailPanel.fetchPredictions network earthquake w =
  (Normal tt,
   mkWorld
     (DetailPanel.setLoading false
        (DetailPanel.setError (Some "Failed to load predictions"%string)
           (DetailPanel.setError None
              (DetailPanel.setLoading true (ui w)))))
     (sent w ++ [DetailPanel.mkRequest (magnitude earthquake)
                   (latitude earthquake) (longitude earthquake)])
     (console w ++ [err])).
Proof.
  intros Hnet.
  unfold DetailPanel.fetchPredictions, DetailPanel.predictAftershocks,
    try_catch_finally, bind, get, setState, console_error, modify, request.
  cbn. rewrite Hnet. reflexivity.
Qed.

(** C6. When the fetch of recent earthquakes, or of the predictions,
    fails, the handler ends normally (the exception is caught) with
    the error message set and the loading flag cleared; it has sent
    that one request and no other (no retry), and the data it held
    before (the earthquake list, the predictions) is unchanged. *)
Theorem failed_fetch_handled {Predictions : Type}
  (network1 : nat -> Home.Request -> Outcome Home.Response)
  (w1 : World Home.State Home.Request) (err1 : string)
  (network2 : nat -> DetailPanel.Request
              -> Outcome (DetailPanel.Response Predictions))
  (earthquake : Earthquake)
  (w2 : World (DetailPanel.State Predictions) DetailPanel.Request)
  (err2 : string)
  (Hfail1 : network1 (List.length (sent w1))
              (Home.mkRequest (Home.timeFilter (ui w1)) 4.0)
            = Rejected err1)
  (Hfail2 : network2 (List.length (sent w2))
              (DetailPanel.mkRequest (magnitude earthquake)
                 (latitude earthquake) (longitude earthquake))
            = Rejected err2) :
  (exists w1',
      Home.loadEarthquakes network1 w1 = (Normal tt, w1') /\
      Home.error (ui w1')
      = Some "Failed to load earthquakes. Please try again."%string /\
      Home.loading (ui w1') = false /\
      Home.earthquakes (ui w1') = Home.earthquakes (ui w1) /\
      sent w1' = sent w1 ++ [Home.mkRequest (Home.timeFilter (ui w1)) 4.0])
  /\
  (exists w2',
      DetailPanel.fetchPredictions network2 earthquake w2
      = (Normal tt, w2') /\
      DetailPanel.error (ui w2') = Some "Failed to load predictions"%string /\
      DetailPanel.loading (ui w2') = false /\
      DetailPanel.predictions (ui w2') = DetailPanel.predictions (ui w2) /\
      sent w2' = sent w2 ++ [DetailPanel.mkRequest (magnitude earthquake)
                               (latitude earthquake) (longitude earthquake)]).
Proof.
  split.
  - rewrite (loadEarthquakes_rejected network1 w1 err1 Hfail1).
    eexists. split; [reflexivity|]. cbn. repeat split.
  - rewrite (fetchPredictions_rejected network2 earthquake w2 err2 Hfail2).
    eexists. split; [reflexivity|]. cbn. repeat split.
Qed.
End FailingFetch.

(** ** Debounce *)

Section Debounce.
Import SearchBar.

Lemma clearPending_timers (s : State) :
  Forall (fun tm => debounceTimer s = Some (handle tm)) (timers s) ->
  timers (clearPending s) = [].
Proof.
  intros Hh. unfold clearPending.
  destruct (debounceTimer s) as [h|] eqn:E.
  - simpl. unfold without.
    induction Hh as [|tm l Htm Hl IH]; simpl; [reflexivity|].
    injection Htm as ->. now rewrite Nat.eqb_refl.
  - destruct Hh as [|tm l Htm _]; [reflexivity | discriminate].
Qed.

Lemma clearPending_fields (s : State) :
  searchQuery (clearPending s) = searchQuery s /\
  debounceTimer (clearPending s) = debounceTimer s /\
  nextHandle (clearPending s) = nextHandle s /\
  clock (clearPending s) = clock s /\
  requests (clearPending s) = requests s.
Proof.
  unfold clearPending. destruct (debounceTimer s) eqn:E; simpl;
    repeat split; auto.
Qed.

(** After a change, the only timeout pending is the new one, if any. *)
Lemma change_timers (s s' : State) (t : Z) (q : string) :
  Forall (fun tm => debounceTimer s = Some (handle tm)) (timers s) ->
  step s (Change t q) = Some s' ->
  clock s <= t /\ q <> searchQuery s /\
  searchQuery s' = q /\ clock s' = t /\ requests s' = requests s /\
  timers s' =
  (if (3 <=? String.length (trim q))%nat
   then [mkTimer (nextHandle s) (t + delay) q] else []) /\
  Forall (fun tm => debounceTimer s' = Some (handle tm)) (timers s').
Proof.
  intros Hh Hstep. simpl in Hstep.
  destruct (Z.leb_spec (clock s) t) as [Hclock|]; [|discriminate].
  destruct (String.eqb_spec q (searchQuery s)) as [|Hq]; [discriminate|].
  simpl in Hstep. injection Hstep as <-.
  split; [exact Hclock|]. split; [exact Hq|].
  unfold cleanup.
  set (s1 := clearPending (setClock t s)).
  assert (H1 : timers s1 = []) by (apply clearPending_timers; exact Hh).
  destruct (clearPending_fields (setClock t s))
    as (_ & Hd1 & Hn1 & Hc1 & Hr1).
  fold s1 in Hd1, Hn1, Hc1, Hr1. simpl in Hd1, Hn1, Hc1, Hr1.
  set (s2 := setSearchQuery q s1).
  assert (H2 : timers (clearPending s2) = []).
  { unfold clearPending, s2. simpl.
    destruct (debounceTimer s1); simpl; now rewrite H1. }
  destruct (clearPending_fields s2) as (Hq3 & Hd3 & Hn3 & Hc3 & Hr3).
  simpl in Hq3, Hd3, Hn3, Hc3, Hr3.
  unfold effect. rewrite Hq3.
  destruct (3 <=? String.length (trim q))%nat; simpl.
  - rewrite Hq3, H2, Hn3, Hn1, Hc3, Hc1, Hr3, Hr1. simpl.
    repeat split. repeat constructor.
  - rewrite Hq3, H2, Hc3, Hc1, Hr3, Hr1. repeat split. constructor.
Qed.

Lemma quietBefore_mono (t t' : Z) (e : Event) :
  t <= t' -> quietBefore t e -> quietBefore t' e.
Proof. destruct e; simpl; intros; [lia | exact I]. Qed.

Lemma notAfter_mono (t t' : Z) (e : Event) :
  t <= t' -> notAfter t e -> notAfter t' e.
Proof. destruct e; simpl; intros; [lia | exact I]. Qed.

Lemma queryAfter_snoc (past : list Event) (e : Event) :
  queryAfter (past ++ [e]) =
  match e with Change _ q => q | Timeout _ _ => queryAfter past end.
Proof. unfold queryAfter. now rewrite fold_left_app. Qed.

Lemma debounced_snoc (past : list Event) (e : Event) (r : Request) :
  debounced past r -> debounced (past ++ [e]) r.
Proof.
  intros (pre & h & post & -> & Hq & Ht).
  exists pre, h, (post ++ [e]). rewrite <- app_assoc. simpl. auto.
Qed.

Lemma without_incl (h : nat) (l : list Timer) (P : Timer -> Prop) :
  Forall P l -> Forall P (without h l).
Proof.
  unfold without. rewrite !Forall_forall. intros HP tm Htm.
  apply filter_In in Htm. now apply HP.
Qed.

Lemma step_invariant (past : list Event) (s s' : State) (e : Event) :
  Invariant past s -> step s e = Some s' -> Invariant (past ++ [e]) s'.
Proof.
  intros [Hclock Hquery Hhandle Hdue Harg Hreq] Hstep.
  destruct e as [t q | t h].
  - destruct (change_timers s s' t q Hhandle Hstep)
      as (Ht & _ & Hq' & Hc' & Hr' & Htm' & Hh').
    assert (Hpast : Forall (notAfter t) (past ++ [Change t q])).
    { apply Forall_app. split.
      - eapply Forall_impl; [|exact Hclock].
        intros e. now apply notAfter_mono.
      - repeat constructor. simpl. lia. }
    constructor.
    + now rewrite Hc'.
    + now rewrite Hq', queryAfter_snoc.
    + exact Hh'.
    + rewrite Htm'. destruct (3 <=? String.length (trim q))%nat;
        constructor; [|constructor]. simpl.
      eapply Forall_impl; [|exact Hpast].
      intros [t1 q1|t1 h1]; simpl; unfold delay; intros; [lia | exact I].
    + rewrite Htm'. destruct (3 <=? String.length (trim q))%nat;
        constructor; [|constructor]. simpl. now rewrite Hq'.
    + rewrite Hr'. eapply Forall_impl; [|exact Hreq].
      intros r. apply debounced_snoc.
  - simpl in Hstep.
    destruct (Z.leb_spec (clock s) t) as [Ht|]; [|discriminate].
    destruct (find (fun tm => (handle tm =? h)%nat) (timers s))
      as [tm|] eqn:Hfind; [|discriminate].
    destruct (Z.leb_spec (due tm) t) as [Hd|]; [|discriminate].
    injection Hstep as <-.
    apply find_some in Hfind. destruct Hfind as [Hin _].
    assert (Hquiet : Forall (quietBefore t) past).
    { rewrite Forall_forall in Hdue. specialize (Hdue tm Hin).
      eapply Forall_impl; [|exact Hdue].
      intros e. now apply quietBefore_mono. }
    assert (Hargument : argument tm = queryAfter past).
    { rewrite Forall_forall in Harg. now rewrite (Harg tm Hin). }
    assert (Hnew : debounced (past ++ [Timeout t h])
                     (mkRequest t (argument tm))).
    { exists past, h, []. simpl. auto. }
    assert (Hold : Forall (debounced (past ++ [Timeout t h])) (requests s)).
    { eapply Forall_impl; [|exact Hreq]. intros r. apply debounced_snoc. }
    unfold fetchSuggestions.
    destruct (String.length (argument tm) <? 3)%nat; constructor; simpl;
      try (apply without_incl; assumption);
      try (now rewrite queryAfter_snoc);
      try (apply Forall_app; split;
           [eapply Forall_impl; [|exact Hclock];
            intros e; now apply notAfter_mono
           | repeat constructor]);
      try exact Hold.
    + apply without_incl. eapply Forall_impl; [|exact Hdue].
      intros tm' Htm'. apply Forall_app. split; [exact Htm'|].
      repeat constructor.
    + apply without_incl. eapply Forall_impl; [|exact Hdue].
      intros tm' Htm'. apply Forall_app. split; [exact Htm'|].
      repeat constructor.
    + apply Forall_app. split; [exact Hold|]. now constructor.
Qed.

Lemma run_invariant (events past : list Event) (s s' : State) :
  Invariant past s -> run s events = Some s' ->
  Invariant (past ++ events) s'.
Proof.
  revert past s. induction events as [|e events IH]; intros past s Hinv Hrun.
  - simpl in Hrun. injection Hrun as <-. now rewrite app_nil_r.
  - simpl in Hrun. destruct (step s e) as [s1|] eqn:Hstep; [|discriminate].
    replace (past ++ e :: events) with ((past ++ [e]) ++ events)
      by (now rewrite <- app_assoc).
    apply IH with s1; [|exact Hrun].
    now apply step_invariant with s.
Qed.

Lemma mounted_invariant (t0 : Z) : Invariant [] (mounted t0).
Proof. constructor; simpl; constructor. Qed.
End Debounce.

(** A change to a text of fewer than 3 characters cancels the pending
    timeout and starts none: after [par] one timeout is pending, after
    the deletion that leaves [pa] there is none. *)
Lemma short_query_starts_no_timer :
  exists s1 s2,
    SearchBar.run (SearchBar.mounted 0) [SearchBar.Change 0 "par"] = Some s1 /\
    SearchBar.timers s1 = [SearchBar.mkTimer 1 300 "par"] /\
    SearchBar.step s1 (SearchBar.Change 100 "pa") = Some s2 /\
    SearchBar.run (SearchBar.mounted 0) Sample.deleting = Some s2 /\
    SearchBar.timers s2 = [].
Proof.
  eexists. eexists.
  split; [vm_compute; reflexivity|].
  split; [reflexivity|].
  split; [vm_compute; reflexivity|].
  split; reflexivity.
Qed.

(** C7. Every autocomplete request is sent by a timeout that
    runs when no change of the input happened in the 300 ms before it,
    for the text the input then has; and every change of the input
    cancels the pending timeout and, when the trimmed text has at least
    3 characters, starts a new one due 300 ms later (none otherwise). *)
Theorem debounce_quiet_delay
  (t0 : Z) (events : list SearchBar.Event) (s : SearchBar.State)
  (Hrun : SearchBar.run (SearchBar.mounted t0) events = Some s) :
  Forall (SearchBar.debounced events) (SearchBar.requests s) /\
  forall t q s',
    SearchBar.step s (SearchBar.Change t q) = Some s' ->
    SearchBar.timers s' =
    if (3 <=? String.length (SearchBar.trim q))%nat
    then [SearchBar.mkTimer (SearchBar.nextHandle s) (t + SearchBar.delay) q]
    else [].
Proof.
  pose proof (run_invariant events [] _ s (mounted_invariant t0) Hrun) as Hinv.
  simpl in Hinv. split.
  - apply (SearchBar.inv_requests _ _ Hinv).
  - intros t q s' Hstep.
    now destruct (change_timers s s' t q (SearchBar.inv_handle _ _ Hinv) Hstep)
      as (_ & _ & _ & _ & _ & Htimers & _).
Qed.

Lemma debounce_quiet_delay_witness :
  exists s,
    SearchBar.run (SearchBar.mounted 0) Sample.typing = Some s /\
    SearchBar.requests s = [SearchBar.mkRequest 400 "pari"] /\
    Forall (SearchBar.debounced Sample.typing) (SearchBar.requests s).
Proof.
  eexists. split; [vm_compute; reflexivity|].
  split; [reflexivity|].
  apply (debounce_quiet_delay 0 Sample.typing). vm_compute. reflexivity.
Defined.

Lemma identifyForeshocks_spec_witness :
  Forall (fun e => time e < 1704672000000) [Sample.weekOld; Sample.strong] /\
  identifyForeshocks [Sample.weekOld; Sample.strong] 1704672000000
  = firstn 5
      (Array_sort byMagnitudeDesc
         (filter (foreshockCandidate 1704672000000)
            [Sample.weekOld; Sample.strong])).
Proof.
  assert (H : Forall (fun e => time e < 1704672000000)
                [Sample.weekOld; Sample.strong]).
  { repeat constructor. }
  split; [exact H|].
  exact (proj1 (identifyForeshocks_spec _ _ H)).
Defined.

Lemma failed_fetch_handled_witness :
  Sample.offline (List.length (Effect.sent Sample.home))
    (Home.mkRequest (Home.timeFilter (Effect.ui Sample.home)) 4.0)
  = Effect.Rejected (D := Home.Response) "Network Error" /\
  Home.earthquakes
    (Effect.ui (snd (Home.loadEarthquakes Sample.offline Sample.home)))
  = [Sample.weekOld] /\
  DetailPanel.predictions
    (Effect.ui (snd (DetailPanel.fetchPredictions Sample.offline
                       Sample.mainshock Sample.panel)))
  = Some 12%nat.
Proof.
  split; [reflexivity|].
  destruct (failed_fetch_handled
              Sample.offline Sample.home "Network Error"
              Sample.offline Sample.mainshock Sample.panel "Network Error"
              eq_refl eq_refl)
    as [(w1 & Hrun1 & _ & _ & Hdata1 & _) (w2 & Hrun2 & _ & _ & Hdata2 & _)].
  rewrite Hrun1, Hrun2. simpl snd. rewrite Hdata1, Hdata2.
  split; reflexivity.
Defined.

(** * Further properties of the cards *)

(** ** The last earthquake at a location *)

Lemma sorted_head_first {A : Type} (R : A -> A -> Prop) (x : A) (l : list A) :
  StronglySorted R (x :: l) -> Forall (R x) l.
Proof. intros Hs. now inversion Hs. Qed.

(** X1. [findLastEarthquakeHere] returns [null] exactly when no event is
    within 50 km of the location; otherwise it returns an event of the
    list within 50 km that is at least as recent as every other event
    within 50 km. *)
Theorem findLastEarthquakeHere_spec
  (earthquakes : list Earthquake) (lat lon : R) :
  (findLastEarthquakeHere earthquakes lat lon = None <->
   Forall (fun e =>
             (calculateDistance lat lon (latitude e) (longitude e) > 50)%R)
     earthquakes) /\
  (forall e,
      findLastEarthquakeHere earthquakes lat lon = Some e ->
      In e earthquakes /\
      (calculateDistance lat lon (latitude e) (longitude e) <= 50)%R /\
      Forall (fun e' =>
                (calculateDistance lat lon (latitude e') (longitude e')
                 <= 50)%R ->
                time e' <= time e)
        earthquakes).
Proof.
  unfold findLastEarthquakeHere. cbv zeta.
  set (here := fun eq : Earthquake =>
                 Rleb (calculateDistance lat lon (latitude eq) (longitude eq))
                   50).
  pose proof (byTimeDesc_sorted (filter here earthquakes)) as Hsorted.
  pose proof (Array_sort_In byTimeDesc (filter here earthquakes)) as Hin.
  destruct (Array_sort byTimeDesc (filter here earthquakes))
    as [|first rest] eqn:E.
  - split.
    + split; [intros _ | reflexivity].
      apply Forall_forall. intros e He.
      destruct (Rle_dec (calculateDistance lat lon (latitude e) (longitude e))
                  50) as [Hle|Hgt]; [|lra].
      exfalso. apply (proj2 (Hin e)). apply filter_In. split; [exact He|].
      unfold here. now apply Rleb_true.
    + intros e He. discriminate.
  - assert (Hfirst : In first (filter here earthquakes)).
    { apply Hin. now left. }
    apply filter_In in Hfirst. destruct Hfirst as [Hf1 Hf2].
    unfold here in Hf2. apply Rleb_true in Hf2.
    split.
    + split; [discriminate|]. intros Hall.
      rewrite Forall_forall in Hall. specialize (Hall first Hf1). lra.
    + intros e He. injection He as <-.
      split; [exact Hf1|]. split; [exact Hf2|].
      apply Forall_forall. intros e' He' Hd'.
      assert (Hmem : In e' (first :: rest)).
      { apply Hin. apply filter_In. split; [exact He'|].
        unfold here. now apply Rleb_true. }
      destruct Hmem as [<-|Hrest]; [lia|].
      apply sorted_head_first in Hsorted.
      rewrite Forall_forall in Hsorted. now apply Hsorted.
Qed.

(** ** Heatmap cells *)

Lemma heatmap_step_cells (reference : Z) (e : Earthquake)
  (a0 a1 a2 a3 a4 a5 a6 : nat) :
  let hit (i : Z) := if wholeDays reference e =? 6 - i then 1%nat else 0%nat in
  heatmap_step reference [a0; a1; a2; a3; a4; a5; a6] e
  = [hit 0%Z + a0; hit 1%Z + a1; hit 2%Z + a2; hit 3%Z + a3; hit 4%Z + a4;
     hit 5%Z + a5; hit 6%Z + a6]%nat.
Proof.
  cbv zeta. unfold heatmap_step. rewrite daysAgo_div. fold (wholeDays reference e).
  set (d := wholeDays reference e).
  destruct (Z.leb_spec 0 d) as [Hlo|Hlo]; simpl.
  - destruct (Z.ltb_spec d 7) as [Hhi|Hhi].
    + assert (Hd : d = 0 \/ d = 1 \/ d = 2 \/ d = 3 \/ d = 4 \/ d = 5 \/ d = 6)
        by lia.
      destruct Hd as [->|[->|[->|[->|[->|[->| ->]]]]]]; reflexivity.
    + repeat match goal with
             | |- context [d =? ?k] => destruct (Z.eqb_spec d k); [lia|]
             end.
      reflexivity.
  - repeat match goal with
           | |- context [d =? ?k] => destruct (Z.eqb_spec d k); [lia|]
           end.
    reflexivity.
Qed.

Lemma heatmap_fold_cells (reference : Z) (l : list Earthquake) :
  forall a0 a1 a2 a3 a4 a5 a6 : nat,
    let n (i : Z) :=
      List.length (filter (fun e => wholeDays reference e =? 6 - i) l) in
    fold_left (heatmap_step reference) l [a0; a1; a2; a3; a4; a5; a6]
    = [a0 + n 0%Z; a1 + n 1%Z; a2 + n 2%Z; a3 + n 3%Z; a4 + n 4%Z;
       a5 + n 5%Z; a6 + n 6%Z]%nat.
Proof.
  induction l as [|e l IH]; intros a0 a1 a2 a3 a4 a5 a6; cbv zeta.
  - simpl. now rewrite !Nat.add_0_r.
  - cbn [fold_left]. rewrite heatmap_step_cells. cbv zeta. rewrite IH.
    cbv zeta. cbn [filter].
    repeat match goal with
           | |- context [wholeDays reference e =? ?k] =>
               destruct (wholeDays reference e =? k)
           end;
      cbn [List.length]; repeat (f_equal; try lia).
Qed.

(** X2. Both heatmap builders return 7 cells, and cell [i] holds exactly
    the number of events whose age in whole days at the reference time
    is [6 - i]: the last cell counts the latest 24 hours, the first one
    the day that ends six days before the reference. *)
Theorem heatmap_cells (reference : Z) (earthquakes : list Earthquake) :
  generateBeforeHeatmap earthquakes reference
  = bucketCounts reference earthquakes /\
  generateHeatmapData reference earthquakes
  = bucketCounts reference earthquakes /\
  List.length (bucketCounts reference earthquakes) = 7%nat.
Proof.
  unfold generateBeforeHeatmap, generateHeatmapData, bucketCounts.
  change (repeat 0%nat 7) with [0; 0; 0; 0; 0; 0; 0]%nat.
  rewrite heatmap_fold_cells. repeat split.
Qed.

Lemma filter_length_le {A : Type} (f : A -> bool) (l : list A) :
  (List.length (filter f l) <= List.length l)%nat.
Proof.
  induction l as [|x l IH]; simpl; [lia|]. destruct (f x); simpl; lia.
Qed.

(** X3. In both cards the cells of the heatmap never add up to more
    than the event count shown beside it, whatever the clock reads. *)
Theorem heatmap_never_overcounts
  (now now' : Z) (lat lon : R) (earthquake : Earthquake)
  (allEarthquakes : list Earthquake) :
  (total (RealTimeActivityCard.heatmapData
            (RealTimeActivityCard.render now now' lat lon allEarthquakes))
   <= RealTimeActivityCard.count7d
        (RealTimeActivityCard.render now now' lat lon allEarthquakes))%nat /\
  (total (EarthquakeActivityCard.heatmapData
            (EarthquakeActivityCard.render earthquake allEarthquakes))
   <= EarthquakeActivityCard.countBefore
        (EarthquakeActivityCard.render earthquake allEarthquakes))%nat.
Proof.
  unfold RealTimeActivityCard.render, EarthquakeActivityCard.render.
  cbv zeta. cbn [RealTimeActivityCard.heatmapData RealTimeActivityCard.count7d
                 EarthquakeActivityCard.heatmapData
                 EarthquakeActivityCard.countBefore].
  split.
  - rewrite (proj2 (generateHeatmapData_total _ _)). apply filter_length_le.
  - rewrite (proj2 (generateBeforeHeatmap_total _ _)). apply filter_length_le.
Qed.

(** X4. In the card of a mainshock the heatmap misses exactly the
    events that happened 7 days before it to the millisecond: the cells
    and those events together make up the count of the week. *)
Theorem before_card_heatmap_gap
  (earthquake : Earthquake) (allEarthquakes : list Earthquake) :
  let card := EarthquakeActivityCard.render earthquake allEarthquakes in
  let nearby :=
    filterEarthquakesByRadius allEarthquakes
      (latitude earthquake) (longitude earthquake)
      (EarthquakeActivityCard.getMagnitudeBasedRadius (magnitude earthquake)) in
  let split := separateBeforeAfter nearby (time earthquake) (id earthquake) in
  (total (EarthquakeActivityCard.heatmapData card)
   + List.length
       (filter (fun e => (time e =? sevenDaysBefore (time earthquake))%Z)
          (before split))
   = EarthquakeActivityCard.countBefore card)%nat.
Proof.
  cbv zeta. unfold EarthquakeActivityCard.render. cbv zeta.
  cbn [EarthquakeActivityCard.heatmapData EarthquakeActivityCard.countBefore].
  apply before7d_heatmap_total.
  rewrite separateBeforeAfter_before. apply Forall_forall.
  intros e He. apply filter_In in He. destruct He as [_ He].
  now apply Z.ltb_lt.
Qed.

(** ** Heatmap colours *)

Lemma maxCount_bounds (heatmapData : list nat) :
  (1 <= maxCount heatmapData)%nat /\
  Forall (fun c => (c <= maxCount heatmapData)%nat) heatmapData.
Proof.
  induction heatmapData as [|c l [IH1 IH2]]; simpl.
  - split; [lia | constructor].
  - split; [lia|]. constructor; [lia|].
    eapply Forall_impl; [|exact IH2]. simpl. intros; lia.
Qed.

Lemma getHeatmapColor_monotone (m c1 c2 : nat) :
  (1 <= m)%nat -> (c1 <= c2)%nat ->
  (heat (getHeatmapColor m c1) <= heat (getHeatmapColor m c2))%nat.
Proof.
  intros Hm Hc.
  assert (HM : (1 <= INR m)%R) by (change 1%R with (INR 1); now apply le_INR).
  assert (HC : (INR c1 <= INR c2)%R) by now apply le_INR.
  assert (Hinv : (0 < / INR m)%R) by (apply Rinv_0_lt_compat; lra).
  assert (Hq : (INR c1 / INR m <= INR c2 / INR m)%R)
    by (unfold Rdiv; nra).
  unfold getHeatmapColor.
  destruct (Nat.eqb_spec c1 0) as [->|H1]; [cbn; lia|].
  destruct (Nat.eqb_spec c2 0) as [->|H2]; [lia|].
  cbv zeta. unfold Rgtb, Rltb.
  repeat match goal with
         | |- context [Rlt_dec ?a ?b] => destruct (Rlt_dec a b)
         end; cbn; try lia; exfalso; lra.
Qed.

(** X5. The colours of a heatmap: an empty cell is grey, a cell with
    events never is, the fullest cell (when it has events) is red, and a
    cell with more events never gets a cooler colour than one with
    fewer. *)
Theorem heatmap_colours (heatmapData : list nat) :
  let m := maxCount heatmapData in
  Forall
    (fun c =>
       (c = 0%nat -> getHeatmapColor m c = "#f3f4f6"%string) /\
       (c <> 0%nat ->
        In (getHeatmapColor m c)
          ["#10b981"; "#fbbf24"; "#f59e0b"; "#dc2626"]%string) /\
       (c <> 0%nat -> c = m -> getHeatmapColor m c = "#dc2626"%string) /\
       Forall
         (fun c' =>
            (c' <= c)%nat ->
            (heat (getHeatmapColor m c') <= heat (getHeatmapColor m c))%nat)
         heatmapData)
    heatmapData.
Proof.
  cbv zeta. destruct (maxCount_bounds heatmapData) as [Hm Hall].
  set (m := maxCount heatmapData) in *.
  apply Forall_forall. intros c Hc.
  split; [|split; [|split]].
  - intros ->. reflexivity.
  - intros Hnz. unfold getHeatmapColor.
    destruct (Nat.eqb_spec c 0); [contradiction|]. cbv zeta.
    destruct (Rgtb _ 0.75); [simpl; tauto|].
    destruct (Rgtb _ 0.5); [simpl; tauto|].
    destruct (Rgtb _ 0.25); simpl; tauto.
  - intros Hnz ->. unfold getHeatmapColor.
    destruct (Nat.eqb_spec m 0); [contradiction|]. cbv zeta.
    assert (HM : (1 <= INR m)%R)
      by (change 1%R with (INR 1); now apply le_INR).
    replace (INR m / INR m)%R with 1%R by (field; lra).
    replace (Rgtb 1 0.75) with true; [reflexivity|].
    symmetry. apply Rgtb_true. lra.
  - apply Forall_forall. intros c' _ Hle.
    now apply getHeatmapColor_monotone.
Qed.

(** ** Trend, windows and the list of recent events *)

Lemma last7Days_in_last30Days (now : Z) (nearby : list Earthquake) :
  RealTimeActivityCard.last7Days now nearby
  = RealTimeActivityCard.last7Days now (RealTimeMetrics.last30Days now nearby).
Proof.
  unfold RealTimeActivityCard.last7Days, RealTimeMetrics.last30Days.
  induction nearby as [|e l IH]; simpl; [reflexivity|].
  destruct (Qle_bool (daysBetween now (time e)) 7) eqn:E7.
  - assert (E30 : Qle_bool (daysBetween now (time e)) 30 = true).
    { apply Qle_bool_iff. apply Qle_bool_iff in E7.
      eapply Qle_trans; [exact E7|]. discriminate. }
    rewrite E30. simpl. rewrite E7. now f_equal.
  - destruct (Qle_bool (daysBetween now (time e)) 30); simpl;
      [rewrite E7|]; exact IH.
Qed.

Lemma trend_increasing (c7 c30 : nat) :
  (INR c7 * 4.3 > INR c30 * 1.2)%R ->
  RealTimeMetrics.trend c7 c30 = "increasing"%string.
Proof.
  intros H. unfold RealTimeMetrics.trend. cbv zeta.
  replace (Rgtb (INR c7) (INR c30 / 4.3 * 1.2)) with true; [reflexivity|].
  symmetry. apply Rgtb_true. lra.
Qed.

Lemma trend_decreasing (c7 c30 : nat) :
  (INR c7 * 4.3 < INR c30 * 0.8)%R ->
  RealTimeMetrics.trend c7 c30 = "decreasing"%string.
Proof.
  intros H. unfold RealTimeMetrics.trend. cbv zeta.
  pose proof (pos_INR c7) as H7. pose proof (pos_INR c30) as H30.
  replace (Rgtb (INR c7) (INR c30 / 4.3 * 1.2)) with false.
  - unfold Rltb. destruct (Rlt_dec (INR c7) (INR c30 / 4.3 * 0.8));
      [reflexivity | exfalso; lra].
  - symmetry. apply Rgtb_false. lra.
Qed.

(** X6. The week is part of the month: every event of the last 7 days
    is among those of the last 30 days, so [count7d <= count30d].  The
    trend is "stable" when the month has no event, "decreasing" when
    the month has events and the week none, and "increasing" when all
    the events of the month fall in the last week. *)
Theorem realtime_trend (now now' : Z) (lat lon : R)
  (allEarthquakes : list Earthquake) :
  let card := RealTimeActivityCard.render now now' lat lon allEarthquakes in
  let more := RealTimeMetrics.render now now' lat lon allEarthquakes in
  let c7 := RealTimeActivityCard.count7d card in
  let c30 := RealTimeMetrics.count30d more in
  (c7 <= c30)%nat /\
  (c30 = 0%nat -> RealTimeMetrics.trendOf more = "stable"%string) /\
  (c7 = 0%nat -> c30 <> 0%nat ->
   RealTimeMetrics.trendOf more = "decreasing"%string) /\
  (c7 = c30 -> c30 <> 0%nat ->
   RealTimeMetrics.trendOf more = "increasing"%string).
Proof.
  cbv zeta. unfold RealTimeActivityCard.render, RealTimeMetrics.render.
  cbv zeta.
  cbn [RealTimeActivityCard.count7d RealTimeMetrics.count30d
       RealTimeMetrics.trendOf].
  set (nearby := filterEarthquakesByRadius allEarthquakes lat lon 500).
  assert (Hle : (List.length (RealTimeActivityCard.last7Days now nearby)
                 <= List.length (RealTimeMetrics.last30Days now nearby))%nat).
  { rewrite last7Days_in_last30Days. apply filter_length_le. }
  set (c7 := List.length (RealTimeActivityCard.last7Days now nearby)) in *.
  set (c30 := List.length (RealTimeMetrics.last30Days now nearby)) in *.
  split; [exact Hle|]. split; [|split].
  - intros H30. assert (H7 : c7 = 0%nat) by lia. rewrite H7, H30.
    unfold RealTimeMetrics.trend, Rgtb, Rltb. cbv zeta. simpl INR.
    destruct (Rlt_dec (0 / 4.3 * 1.2) 0); [exfalso; lra|].
    destruct (Rlt_dec 0 (0 / 4.3 * 0.8)); [exfalso; lra|]. reflexivity.
  - intros H7 H30. rewrite H7. apply trend_decreasing. simpl INR.
    assert (0 < INR c30)%R by (apply lt_0_INR; lia). lra.
  - intros H7 H30. rewrite H7. apply trend_increasing.
    assert (0 < INR c30)%R by (apply lt_0_INR; lia). lra.
Qed.

(** X7. The "nearest recent events" of the real-time card are at most
    three events within 500 km, in non-increasing order of time: they
    are the most recent ones, and every event within 500 km that is
    left out is no more recent than each of them. *)
Theorem nearestEvents_most_recent (lat lon : R)
  (allEarthquakes : list Earthquake) :
  let nearby := filterEarthquakesByRadius allEarthquakes lat lon 500 in
  let shown := RealTimeMetrics.nearestEvents nearby in
  List.length shown = Nat.min 3 (List.length nearby) /\
  StronglySorted (fun a b => time a >= time b) shown /\
  exists rest,
    nearby = shown ++ rest /\
    Forall (fun r => Forall (fun e => time r <= time e) shown) rest.
Proof.
  cbv zeta. unfold RealTimeMetrics.nearestEvents.
  set (nearby := filterEarthquakesByRadius allEarthquakes lat lon 500).
  assert (Hs : StronglySorted (fun a b => time b <= time a) nearby)
    by apply byTimeDesc_sorted.
  split; [apply length_firstn|]. split.
  - apply firstn_sorted. eapply StronglySorted_impl; [|exact Hs].
    simpl. intros; lia.
  - exists (skipn 3 nearby). split; [now rewrite firstn_skipn|].
    now apply firstn_above_skipn.
Qed.

(** ** Radii and marker sizes *)

Lemma clamp_bounds (lo hi x : R) :
  (lo <= hi)%R ->
  (lo <= Rmax lo (Rmin hi x) <= hi)%R /\
  ((lo <= x <= hi)%R -> Rmax lo (Rmin hi x) = x).
Proof.
  intros Hle. unfold Rmax, Rmin.
  destruct (Rle_dec hi x); destruct (Rle_dec lo hi);
    try destruct (Rle_dec lo x); split; intros; lra.
Qed.

Lemma clamp_monotone (lo hi x y : R) :
  (x <= y)%R -> (Rmax lo (Rmin hi x) <= Rmax lo (Rmin hi y))%R.
Proof.
  intros Hxy. unfold Rmax, Rmin.
  destruct (Rle_dec hi x); destruct (Rle_dec hi y);
    repeat match goal with
           | |- context [Rle_dec ?a ?b] => destruct (Rle_dec a b)
           end; lra.
Qed.

(** X8. The search radius of the mainshock card is always between 500
    and 1500 km; it is 100 km per unit of magnitude from magnitude 5 to
    15, and never shrinks when the magnitude grows. *)
Theorem getMagnitudeBasedRadius_bounds (m m' : R) :
  (500 <= EarthquakeActivityCard.getMagnitudeBasedRadius m <= 1500)%R /\
  ((5 <= m <= 15)%R ->
   EarthquakeActivityCard.getMagnitudeBasedRadius m = (m * 100)%R) /\
  ((m <= m')%R ->
   (EarthquakeActivityCard.getMagnitudeBasedRadius m
    <= EarthquakeActivityCard.getMagnitudeBasedRadius m')%R).
Proof.
  unfold EarthquakeActivityCard.getMagnitudeBasedRadius.
  destruct (clamp_bounds 500 1500 (m * 100)) as [Hb He]; [lra|].
  split; [exact Hb|]. split.
  - intros H. apply He. lra.
  - intros H. apply clamp_monotone. lra.
Qed.

(** X9. The markers: the dot of an epicentre is 8 to 24 pixels wide and
    its container 48 to 96, never less than four times the dot, so the
    ring that grows to 2.8 times the dot stays inside; the dot of the
    older pulsing marker is 10 to 40 pixels wide. *)
Theorem marker_sizes (mag : R) :
  (8 <= EpicenterMarker.radius mag <= 24)%R /\
  (48 <= EpicenterMarker.containerSize mag <= 96)%R /\
  (4 * EpicenterMarker.radius mag <= EpicenterMarker.containerSize mag)%R /\
  (2.8 * EpicenterMarker.radius mag < EpicenterMarker.containerSize mag)%R /\
  (10 <= PulsingMarker.radius mag <= 40)%R.
Proof.
  unfold EpicenterMarker.containerSize, EpicenterMarker.radius,
    PulsingMarker.radius.
  destruct (clamp_bounds 8 24 (mag * 4)) as [Hr _]; [lra|].
  destruct (clamp_bounds 10 40 (mag * 6)) as [Hp _]; [lra|].
  set (r := Rmax 8 (Rmin 24 (mag * 4))) in *.
  set (p := Rmax 10 (Rmin 40 (mag * 6))) in *.
  unfold Rmax.
  destruct (Rle_dec 48 (r * 4)); repeat split; lra.
Qed.

(** ** Time differences *)

Lemma floor_quotient (d : Z) :
  Math_floor (inject_Z d / inject_Z msPerDay)%Q = d / msPerDay.
Proof.
  unfold Math_floor, Qdiv, Qmult, Qfloor. simpl. now rewrite Z.mul_1_r.
Qed.

(** X10. For an event before the mainshock [getTimeDifference] always
    answers in days, rounded up: the number is the age difference in
    days rounded up to a whole number, at least 1, so an event one
    minute before the mainshock reads "1 day before"; the answers in
    hours and "Shortly before" are never given.  For an event at or
    after the mainshock it is [formatTimeAgo] of the event's time. *)
Theorem getTimeDifference_days
  (formatTimeAgo : Z -> string) (earthquakeTime mainshockTime : Z) :
  let days := (mainshockTime - earthquakeTime - 1) / msPerDay + 1 in
  (earthquakeTime < mainshockTime ->
   1 <= days /\
   AftershockMetrics.getTimeDifference formatTimeAgo earthquakeTime
     mainshockTime
   = (showInt days ++ " day" ++ (if (days =? 1)%Z then "" else "s")
      ++ " before")%string) /\
  (mainshockTime <= earthquakeTime ->
   AftershockMetrics.getTimeDifference formatTimeAgo earthquakeTime
     mainshockTime
   = formatTimeAgo earthquakeTime).
Proof.
  cbv zeta. unfold AftershockMetrics.getTimeDifference. cbv zeta.
  rewrite floor_quotient. split.
  - intros Hlt.
    assert (Hdays : (earthquakeTime - mainshockTime) / msPerDay
                    = - ((mainshockTime - earthquakeTime - 1) / msPerDay + 1)).
    { unfold msPerDay. change (1000 * 60 * 60 * 24) with 86400000.
      Z.div_mod_to_equations. lia. }
    assert (Hpos : 0 <= (mainshockTime - earthquakeTime - 1) / msPerDay).
    { apply Z.div_pos; [lia | reflexivity]. }
    rewrite Hdays.
    set (q := (mainshockTime - earthquakeTime - 1) / msPerDay) in *.
    split; [lia|].
    replace (Z.abs (- (q + 1))) with (q + 1) by lia.
    destruct (Z.ltb_spec (earthquakeTime - mainshockTime) 0); [|lia].
    destruct (Z.ltb_spec 0 (q + 1)); [|lia].
    unfold AftershockMetrics.plural.
    destruct (Z.ltb_spec 1 (q + 1)); destruct (Z.eqb_spec (q + 1) 1);
      try lia; reflexivity.
  - intros Hge.
    destruct (Z.ltb_spec (earthquakeTime - mainshockTime) 0); [lia|].
    reflexivity.
Qed.

(** ** The largest aftershock and average magnitudes *)

Lemma fold_largest (l : list Earthquake) :
  forall cur,
    let r := fold_left
               (fun max eq =>
                  if Rgtb (magnitude eq) (magnitude max) then eq else max)
               l cur in
    (r = cur /\ Forall (fun e => (magnitude e <= magnitude cur)%R) l) \/
    (exists pre post,
        l = pre ++ r :: post /\
        (magnitude cur < magnitude r)%R /\
        Forall (fun e => (magnitude e < magnitude r)%R) pre /\
        Forall (fun e => (magnitude e <= magnitude r)%R) post).
Proof.
  induction l as [|e l IH]; intros cur; cbv zeta.
  - left. split; [reflexivity | constructor].
  - cbn [fold_left].
    destruct (Rgtb (magnitude e) (magnitude cur)) eqn:E.
    + apply Rgtb_true in E. right.
      destruct (IH e) as [[Hr Hall] | (pre & post & Hl & Hlt & Hpre & Hpost)].
      * exists [], l. rewrite Hr. split; [reflexivity|].
        split; [lra|]. split; [constructor | exact Hall].
      * exists (e :: pre), post. split; [now rewrite Hl at 1|].
        split; [lra|]. split; [|exact Hpost].
        constructor; [lra | exact Hpre].
    + apply Rgtb_false in E.
      destruct (IH cur)
        as [[Hr Hall] | (pre & post & Hl & Hlt & Hpre & Hpost)].
      * left. split; [exact Hr|]. constructor; [exact E | exact Hall].
      * right. exists (e :: pre), post. split; [now rewrite Hl at 1|].
        split; [exact Hlt|]. split; [|exact Hpost].
        constructor; [lra | exact Hpre].
Qed.

(** X11. The largest aftershock is [null] exactly when there is no
    aftershock; otherwise it is an aftershock of the greatest magnitude,
    and of several with that magnitude the first in the list. *)
Theorem largestAftershock_spec (after : list Earthquake) :
  (AftershockMetrics.largestAftershock after = None <-> after = []) /\
  (forall m,
      AftershockMetrics.largestAftershock after = Some m ->
      exists pre post,
        after = pre ++ m :: post /\
        Forall (fun e => (magnitude e < magnitude m)%R) pre /\
        Forall (fun e => (magnitude e <= magnitude m)%R) post).
Proof.
  destruct after as [|first rest]; simpl.
  - split; [tauto | discriminate].
  - split; [split; discriminate|].
    intros m Hm. injection Hm as Hm.
    replace (Rgtb (magnitude first) (magnitude first)) with false in Hm
      by (symmetry; apply Rgtb_false; lra).
    destruct (fold_largest rest first)
      as [[Hr Hall] | (pre & post & Hl & Hlt & Hpre & Hpost)];
      rewrite Hm in *.
    + exists [], rest. rewrite Hr. split; [reflexivity|].
      split; [constructor | exact Hall].
    + exists (first :: pre), post. split; [now rewrite Hl at 1|].
      split; [|exact Hpost]. constructor; [exact Hlt | exact Hpre].
Qed.

Lemma getTimeDifference_days_witness :
  AftershockMetrics.getTimeDifference (fun _ => "just now"%string)
    (1704672000000 - 60000) 1704672000000
  = "1 day before"%string.
Proof.
  destruct (getTimeDifference_days (fun _ => "just now"%string)
              (1704672000000 - 60000) 1704672000000) as [Hbefore _].
  destruct Hbefore as [_ ->]; [reflexivity|]. reflexivity.
Defined.

(** ** How the mainshock card composes its steps *)

Lemma filter_length_impl {A : Type} (f g : A -> bool) (l : list A) :
  (forall x, In x l -> f x = true -> g x = true) ->
  (List.length (filter f l) <= List.length (filter g l))%nat.
Proof.
  induction l as [|x l IH]; intros H; simpl; [lia|].
  assert (IH' : (List.length (filter f l) <= List.length (filter g l))%nat).
  { apply IH. intros y Hy. apply H. now right. }
  destruct (f x) eqn:Ef.
  - rewrite (H x (or_introl eq_refl) Ef). simpl. lia.
  - destruct (g x); simpl; lia.
Qed.

Lemma In_firstn {A : Type} (n : nat) (l : list A) (x : A) :
  In x (firstn n l) -> In x l.
Proof.
  intros H. rewrite <- (firstn_skipn n l). apply in_or_app. now left.
Qed.

(** X13. In the card of a mainshock every listed foreshock is an event
    of the catalogue other than the mainshock, within the search radius
    of the mainshock, in the 7 days before it and of magnitude 3.5 or
    more; there are at most 5 of them and no more than the count of the
    week.  The mainshock is counted neither before nor after: when it is
    in the catalogue, the two counts add up to less than the catalogue. *)
Theorem mainshock_card_composition
  (earthquake : Earthquake) (allEarthquakes : list Earthquake) :
  let card := EarthquakeActivityCard.render earthquake allEarthquakes in
  let lat := latitude earthquake in
  let lon := longitude earthquake in
  let radius :=
    EarthquakeActivityCard.getMagnitudeBasedRadius (magnitude earthquake) in
  Forall
    (fun f =>
       id f <> id earthquake /\
       time earthquake - 7 * 86400000 <= time f < time earthquake /\
       (magnitude f >= 3.5)%R /\
       (calculateDistance lat lon (latitude f) (longitude f) <= radius)%R /\
       exists e, In e allEarthquakes /\ f = located lat lon e)
    (EarthquakeActivityCard.foreshocks card) /\
  (List.length (EarthquakeActivityCard.foreshocks card) <= 5)%nat /\
  (List.length (EarthquakeActivityCard.foreshocks card)
   <= EarthquakeActivityCard.countBefore card)%nat /\
  (EarthquakeActivityCard.countBefore card
   + EarthquakeActivityCard.countAfter card
   <= List.length allEarthquakes)%nat /\
  (In earthquake allEarthquakes ->
   (EarthquakeActivityCard.countBefore card
    + EarthquakeActivityCard.countAfter card
    < List.length allEarthquakes)%nat).
Proof.
  cbv zeta. unfold EarthquakeActivityCard.render. cbv zeta.
  cbn [EarthquakeActivityCard.foreshocks EarthquakeActivityCard.countBefore
       EarthquakeActivityCard.countAfter].
  set (lat := latitude earthquake). set (lon := longitude earthquake).
  set (radius :=
         EarthquakeActivityCard.getMagnitudeBasedRadius (magnitude earthquake)).
  set (nearby := filterEarthquakesByRadius allEarthquakes lat lon radius).
  set (T := time earthquake). set (mid := id earthquake).
  rewrite separateBeforeAfter_before, separateBeforeAfter_after.
  set (bef := filter (fun e => time e <? T) (others mid nearby)).
  assert (Hlen_nearby : (List.length nearby <= List.length allEarthquakes)%nat).
  { unfold nearby, filterEarthquakesByRadius.
    rewrite Array_sort_length.
    etransitivity; [apply filter_length_le|]. now rewrite length_map. }
  assert (Hsplit :
            (List.length bef
             + List.length (filter (fun e => negb (time e <? T)%Z)
                              (others mid nearby))
             = List.length (others mid nearby))%nat)
    by apply filter_split_length.
  assert (Hweek : (List.length (EarthquakeActivityCard.before7d T bef)
                   <= List.length bef)%nat) by apply filter_length_le.
  assert (Hothers : (List.length (others mid nearby)
                     <= List.length nearby)%nat) by apply filter_length_le.
  split; [|split; [|split; [|split]]].
  - apply Forall_forall. intros f Hf.
    unfold identifyForeshocks in Hf. apply In_firstn in Hf.
    apply (proj1 (Array_sort_In _ _ _)) in Hf.
    apply filter_In in Hf. destruct Hf as [Hbef Hfore].
    unfold bef in Hbef. apply filter_In in Hbef. destruct Hbef as [Hoth Htime].
    apply others_In in Hoth. destruct Hoth as [Hnear Hid].
    apply Z.ltb_lt in Htime.
    unfold isForeshock, sevenDaysBefore, sevenDaysMs in Hfore.
    apply andb_true_iff in Hfore. destruct Hfore as [Hlo Hmag].
    apply Z.leb_le in Hlo. apply Rleb_true in Hmag.
    apply filterEarthquakesByRadius_In in Hnear.
    destruct Hnear as (e & He & Hloc & Hd).
    split; [exact Hid|]. split; [fold T; lia|]. split; [lra|]. split.
    + rewrite Hloc. exact Hd.
    + now exists e.
  - unfold identifyForeshocks. rewrite length_firstn. lia.
  - unfold identifyForeshocks. rewrite length_firstn, Array_sort_length.
    etransitivity; [apply Nat.le_min_r|].
    unfold EarthquakeActivityCard.before7d.
    apply filter_length_impl. intros x _ Hx.
    unfold isForeshock in Hx. apply andb_true_iff in Hx. tauto.
  - lia.
  - intros Hin.
    assert (Hmain : In (located lat lon earthquake) nearby).
    { apply filterEarthquakesByRadius_complete; [exact Hin|].
      unfold lat, lon. rewrite calculateDistance_same.
      destruct (clamp_bounds 500 1500 (magnitude earthquake * 100))
        as [Hr _]; [lra|].
      unfold radius, EarthquakeActivityCard.getMagnitudeBasedRadius. lra. }
    assert (Hlt : (List.length (others mid nearby) < List.length nearby)%nat).
    { unfold others. clear -Hmain. induction nearby as [|x l IH];
        [contradiction|]. simpl.
      destruct Hmain as [->|Hmain].
      - simpl. unfold mid. rewrite String.eqb_refl. simpl.
        pose proof (filter_length_le
                      (fun eq => negb (String.eqb (id eq) (id earthquake))) l).
        lia.
      - specialize (IH Hmain).
        destruct (negb (String.eqb (id x) mid)); simpl; lia. }
    lia.
Qed.

Lemma sorted_split_at (T : Z) (l : list Earthquake) :
  StronglySorted (fun a b => time b <= time a) l ->
  filter (fun e => negb (time e <? T)) l ++ filter (fun e => time e <? T) l
  = l.
Proof.
  induction 1 as [|x l Hs IH Hx]; simpl; [reflexivity|].
  destruct (Z.ltb_spec (time x) T) as [Hlt|Hge]; simpl.
  - assert (Hall : forall e, In e l -> (time e <? T) = true).
    { intros e He. rewrite Forall_forall in Hx. specialize (Hx e He).
      apply Z.ltb_lt. lia. }
    assert (Hnone : filter (fun e => negb (time e <? T)) l = []).
    { clear -Hall. induction l as [|y l IH]; simpl; [reflexivity|].
      rewrite (Hall y (or_introl eq_refl)). simpl. apply IH.
      intros e He. apply Hall. now right. }
    assert (Hsame : filter (fun e => time e <? T) l = l).
    { clear -Hall. induction l as [|y l IH]; simpl; [reflexivity|].
      rewrite (Hall y (or_introl eq_refl)). f_equal. apply IH.
      intros e He. apply Hall. now right. }
    now rewrite Hnone, Hsame.
  - now rewrite IH.
Qed.

Lemma filter_sorted {A : Type} (R : A -> A -> Prop) (f : A -> bool)
  (l : list A) :
  StronglySorted R l -> StronglySorted R (filter f l).
Proof.
  induction 1 as [|x l Hs IH Hx]; simpl; [constructor|].
  destruct (f x); [|exact IH]. constructor; [exact IH|].
  rewrite Forall_forall in *. intros y Hy. apply Hx.
  now apply filter_In in Hy.
Qed.

(** X14. Applied to the output of the radius filter, which is in order
    of time, [separateBeforeAfter] cuts the list in two: the events
    other than the mainshock are the aftershocks followed by the earlier
    events, and both groups are still most recent first. *)
Theorem separateBeforeAfter_cuts_sorted
  (allEarthquakes : list Earthquake) (lat lon radiusKm : R)
  (mainshockTime : Z) (mainshockId : string) :
  let nearby := filterEarthquakesByRadius allEarthquakes lat lon radiusKm in
  let groups := separateBeforeAfter nearby mainshockTime mainshockId in
  others mainshockId nearby = after groups ++ before groups /\
  StronglySorted (fun a b => time a >= time b) (after groups) /\
  StronglySorted (fun a b => time a >= time b) (before groups).
Proof.
  cbv zeta.
  set (nearby := filterEarthquakesByRadius allEarthquakes lat lon radiusKm).
  rewrite separateBeforeAfter_before, separateBeforeAfter_after.
  assert (Hs : StronglySorted (fun a b => time b <= time a)
                 (others mainshockId nearby)).
  { apply filter_sorted. apply byTimeDesc_sorted. }
  split; [now rewrite sorted_split_at|].
  split; apply filter_sorted;
    (eapply StronglySorted_impl; [|exact Hs]); simpl; intros; lia.
Qed.

(** * Further properties of the handlers *)

Section Handlers.
Import Effect.

Lemma loadEarthquakes_resolved
  (network : nat -> Home.Request -> Outcome Home.Response)
  (w : World Home.State Home.Request) (data : Home.Response) :
  network (List.length (sent w))
    (Home.mkRequest (Home.timeFilter (ui w)) 4.0) = Resolved data ->
  let loaded :=
    Home.setEarthquakes
      (match Home.res_earthquakes data with Some l => l | None => [] end)
      (Home.setError None (Home.setLoading true (ui w))) in
  let centred :=
    match Home.res_earthquakes data with
    | Some (latest :: _) =>
        if Home.isNull (Home.userLocation (ui w))
           && Home.isNull (Home.searchedLocation (ui w))
        then Home.setMapZoom 5
               (Home.setMapCenter (latitude latest, longitude latest) loaded)
        else loaded
    | _ => loaded
    end in
  Home.loadEarthquakes network w =
  (Normal tt,
   mkWorld (Home.setLoading false centred)
     (sent w ++ [Home.mkRequest (Home.timeFilter (ui w)) 4.0])
     (console w)).
Proof.
  intros Hnet. cbv zeta.
  unfold Home.loadEarthquakes, Home.fetchRecentEarthquakes,
    try_catch_finally, bind, get, setState, console_error, modify, request.
  cbn. rewrite Hnet. cbn.
  destruct (Home.res_earthquakes data) as [[|latest rest]|]; cbn;
    try reflexivity.
  destruct (Home.isNull (Home.userLocation (ui w))
            && Home.isNull (Home.searchedLocation (ui w))); reflexivity.
Qed.

(** X15. [loadEarthquakes] and [fetchPredictions] always run to their
    end without throwing, whatever the service does: they send exactly
    one request, leave the loading flag cleared, and leave an error
    message exactly when the request was rejected.  A load never moves
    the map once the user has given a location or searched one. *)
Theorem handlers_always_settle {Predictions : Type}
  (network1 : nat -> Home.Request -> Outcome Home.Response)
  (w1 : World Home.State Home.Request)
  (network2 : nat -> DetailPanel.Request
              -> Outcome (DetailPanel.Response Predictions))
  (earthquake : Earthquake)
  (w2 : World (DetailPanel.State Predictions) DetailPanel.Request) :
  let request1 := Home.mkRequest (Home.timeFilter (ui w1)) 4.0 in
  let request2 :=
    DetailPanel.mkRequest (magnitude earthquake) (latitude earthquake)
      (longitude earthquake) in
  (exists w1',
      Home.loadEarthquakes network1 w1 = (Normal tt, w1') /\
      sent w1' = sent w1 ++ [request1] /\
      Home.loading (ui w1') = false /\
      (Home.error (ui w1') = None <->
       exists data, network1 (List.length (sent w1)) request1 = Resolved data)
      /\
      (Home.userLocation (ui w1) <> None \/
       Home.searchedLocation (ui w1) <> None ->
       Home.mapCenter (ui w1') = Home.mapCenter (ui w1) /\
       Home.mapZoom (ui w1') = Home.mapZoom (ui w1))) /\
  (exists w2',
      DetailPanel.fetchPredictions network2 earthquake w2 = (Normal tt, w2') /\
      sent w2' = sent w2 ++ [request2] /\
      DetailPanel.loading (ui w2') = false /\
      (DetailPanel.error (ui w2') = None <->
       exists response,
         network2 (List.length (sent w2)) request2 = Resolved response)).
Proof.
  cbv zeta. split.
  - destruct (network1 (List.length (sent w1))
                (Home.mkRequest (Home.timeFilter (ui w1)) 4.0))
      as [data|err] eqn:Hnet.
    + rewrite (loadEarthquakes_resolved network1 w1 data Hnet). cbv zeta.
      eexists. split; [reflexivity|]. cbn [sent ui].
      split; [reflexivity|]. split; [reflexivity|]. split.
      * split; [intros _; now exists data|]. intros _.
        destruct (Home.res_earthquakes data) as [[|latest rest]|];
          try reflexivity.
        destruct (Home.isNull (Home.userLocation (ui w1))
                  && Home.isNull (Home.searchedLocation (ui w1)));
          reflexivity.
      * intros Hset.
        assert (Hno : Home.isNull (Home.userLocation (ui w1))
                      && Home.isNull (Home.searchedLocation (ui w1)) = false).
        { destruct (Home.userLocation (ui w1));
            destruct (Home.searchedLocation (ui w1)); simpl; try reflexivity.
          destruct Hset; congruence. }
        rewrite Hno.
        destruct (Home.res_earthquakes data) as [[|latest rest]|];
          split; reflexivity.
    + rewrite (loadEarthquakes_rejected network1 w1 err Hnet).
      eexists. split; [reflexivity|]. cbn.
      split; [reflexivity|]. split; [reflexivity|]. split.
      * split; [discriminate|]. intros [data Hd]. discriminate.
      * intros _. split; reflexivity.
  - destruct (network2 (List.length (sent w2))
                (DetailPanel.mkRequest (magnitude earthquake)
                   (latitude earthquake) (longitude earthquake)))
      as [response|err] eqn:Hnet.
    + unfold DetailPanel.fetchPredictions, DetailPanel.predictAftershocks,
        try_catch_finally, bind, get, setState, console_error, modify, request.
      cbn. rewrite Hnet. cbn.
      eexists. split; [reflexivity|]. cbn.
      split; [reflexivity|]. split; [reflexivity|].
      split; [intros _; now exists response | reflexivity].
    + rewrite (fetchPredictions_rejected network2 earthquake w2 err Hnet).
      eexists. split; [reflexivity|]. cbn.
      split; [reflexivity|]. split; [reflexivity|].
      split; [discriminate|]. intros [response Hr]. discriminate.
Qed.

(** X16. When the service answers, [loadEarthquakes] replaces the list
    by the [earthquakes] of the answer (the empty list when the field is
    missing) and clears the error.  It centres the map on the first
    event of the answer at zoom 5 when there is one and the user has
    neither a location nor a search; otherwise the map stays as it is. *)
Theorem loadEarthquakes_success
  (network : nat -> Home.Request -> Outcome Home.Response)
  (w : World Home.State Home.Request) (data : Home.Response)
  (Hnet : network (List.length (sent w))
            (Home.mkRequest (Home.timeFilter (ui w)) 4.0) = Resolved data) :
  let after := ui (snd (Home.loadEarthquakes network w)) in
  Home.earthquakes after
  = match Home.res_earthquakes data with Some l => l | None => [] end /\
  Home.error after = None /\
  (forall latest rest,
      Home.res_earthquakes data = Some (latest :: rest) ->
      Home.userLocation (ui w) = None ->
      Home.searchedLocation (ui w) = None ->
      Home.mapCenter after = (latitude latest, longitude latest) /\
      Home.mapZoom after = 5) /\
  (Home.res_earthquakes data = None \/ Home.res_earthquakes data = Some [] ->
   Home.mapCenter after = Home.mapCenter (ui w) /\
   Home.mapZoom after = Home.mapZoom (ui w)).
Proof.
  cbv zeta. rewrite (loadEarthquakes_resolved network w data Hnet).
  cbv zeta. cbn [snd ui]. split; [|split; [|split]].
  - destruct (Home.res_earthquakes data) as [[|latest rest]|];
      try reflexivity.
    destruct (Home.isNull (Home.userLocation (ui w))
              && Home.isNull (Home.searchedLocation (ui w))); reflexivity.
  - destruct (Home.res_earthquakes data) as [[|latest rest]|];
      try reflexivity.
    destruct (Home.isNull (Home.userLocation (ui w))
              && Home.isNull (Home.searchedLocation (ui w))); reflexivity.
  - intros latest rest Hdata Huser Hsearch.
    rewrite Hdata, Huser, Hsearch. split; reflexivity.
  - intros [Hdata|Hdata]; rewrite Hdata; split; reflexivity.
Qed.

(** X17. A response of the prediction service without the [predictions]
    field clears the forecast the panel held and sets no error; a
    response with the field stores it. *)
Theorem fetchPredictions_success {Predictions : Type}
  (network : nat -> DetailPanel.Request
             -> Outcome (DetailPanel.Response Predictions))
  (earthquake : Earthquake)
  (w : World (DetailPanel.State Predictions) DetailPanel.Request)
  (response : DetailPanel.Response Predictions)
  (Hnet : network (List.length (sent w))
            (DetailPanel.mkRequest (magnitude earthquake)
               (latitude earthquake) (longitude earthquake))
          = Resolved response) :
  let after := ui (snd (DetailPanel.fetchPredictions network earthquake w)) in
  DetailPanel.predictions after = DetailPanel.res_predictions response /\
  DetailPanel.error after = None /\
  DetailPanel.loading after = false.
Proof.
  cbv zeta.
  unfold DetailPanel.fetchPredictions, DetailPanel.predictAftershocks,
    try_catch_finally, bind, get, setState, console_error, modify, request.
  cbn. rewrite Hnet. cbn. repeat split.
Qed.

(** X18. Retry: when a load fails and the next one succeeds, the error
    of the first is gone, the list is that of the answer, and two
    requests were sent in all. *)
Theorem loadEarthquakes_retry
  (network : nat -> Home.Request -> Outcome Home.Response)
  (w : World Home.State Home.Request) (err : string) (data : Home.Response)
  (Hfirst : network (List.length (sent w))
              (Home.mkRequest (Home.timeFilter (ui w)) 4.0) = Rejected err)
  (Hsecond : network (S (List.length (sent w)))
               (Home.mkRequest (Home.timeFilter (ui w)) 4.0) = Resolved data) :
  let once := snd (Home.loadEarthquakes network w) in
  let twice :=
    snd (Async.andThen (Home.loadEarthquakes network)
           (Home.loadEarthquakes network) w) in
  Home.error (ui once) <> None /\
  Home.error (ui twice) = None /\
  Home.loading (ui twice) = false /\
  Home.earthquakes (ui twice)
  = match Home.res_earthquakes data with Some l => l | None => [] end /\
  List.length (sent twice) = (List.length (sent w) + 2)%nat.
Proof.
  cbv zeta. unfold Async.andThen, bind.
  rewrite (loadEarthquakes_rejected network w err Hfirst).
  cbn [snd]. split; [cbn; discriminate|].
  match goal with |- context [Home.loadEarthquakes network ?w1] =>
    set (w' := w1)
  end.
  assert (Hnet : network (List.length (sent w'))
                   (Home.mkRequest (Home.timeFilter (ui w')) 4.0)
                 = Resolved data).
  { unfold w'. cbn [sent ui]. rewrite length_app. cbn.
    rewrite Nat.add_1_r. exact Hsecond. }
  rewrite (loadEarthquakes_resolved network w' data Hnet). cbv zeta.
  cbn [snd ui sent].
  split; [|split; [|split]].
  - destruct (Home.res_earthquakes data) as [[|latest rest]|];
      try reflexivity.
    destruct (Home.isNull (Home.userLocation (ui w'))
              && Home.isNull (Home.searchedLocation (ui w'))); reflexivity.
  - reflexivity.
  - destruct (Home.res_earthquakes data) as [[|latest rest]|];
      try reflexivity.
    destruct (Home.isNull (Home.userLocation (ui w'))
              && Home.isNull (Home.searchedLocation (ui w'))); reflexivity.
  - unfold w'. cbn [sent]. rewrite !length_app. cbn. lia.
Qed.
End Handlers.

(** ** The location panel *)

Section LocationRisk.
Import Effect Async.
Context {Predictions ModelInfo : Type}.
Variable model_info : Predictions -> ModelInfo.
Variable network :
  nat -> DetailPanel.Request -> Outcome (DetailPanel.Response Predictions).

Let World' :=
  World (LocationRiskPanel.State Predictions ModelInfo) DetailPanel.Request.

Lemma fetchScenario_run (location : Home.Location)
  (scenario : LocationRiskPanel.Scenario) (w : World') :
  exists logged,
    LocationRiskPanel.fetchScenario network location scenario w
    = (Normal (LocationRiskPanel.answer network (List.length (sent w))
                 location 0 scenario),
       mkWorld (ui w)
         (sent w ++ [LocationRiskPanel.requestFor location scenario])
         (console w ++ logged)).
Proof.
  unfold LocationRiskPanel.fetchScenario, LocationRiskPanel.answer, try_catch,
    bind, ret, request, console_error, modify.
  rewrite Nat.add_0_r.
  destruct (network (List.length (sent w))
              (LocationRiskPanel.requestFor location scenario)) as [r|err].
  - exists []. cbn. now rewrite app_nil_r.
  - eexists [_]. cbn. reflexivity.
Qed.

Lemma answer_shift (n i : nat) (location : Home.Location)
  (scenario : LocationRiskPanel.Scenario) :
  LocationRiskPanel.answer network (S n) location i scenario
  = LocationRiskPanel.answer network n location (S i) scenario.
Proof.
  unfold LocationRiskPanel.answer. now rewrite Nat.add_succ_r.
Qed.

Lemma answers_shift (n : nat) (location : Home.Location) (idx : list nat) :
  forall items : list LocationRiskPanel.Scenario,
    map (fun '(i, scenario) =>
           LocationRiskPanel.answer network (S n) location i scenario)
      (combine idx items)
    = map (fun '(i, scenario) =>
             LocationRiskPanel.answer network n location i scenario)
        (combine (map S idx) items).
Proof.
  induction idx as [|i idx IH]; intros [|sc items]; cbn; try reflexivity.
  rewrite answer_shift. f_equal. apply IH.
Qed.

Lemma promise_all_run (location : Home.Location)
  (items : list LocationRiskPanel.Scenario) :
  forall w : World',
  exists logged,
    promise_all (LocationRiskPanel.fetchScenario network location) items w
    = (Normal
         (map (fun '(i, scenario) =>
                 LocationRiskPanel.answer network (List.length (sent w))
                   location i scenario)
            (combine (seq 0 (List.length items)) items)),
       mkWorld (ui w)
         (sent w ++ map (LocationRiskPanel.requestFor location) items)
         (console w ++ logged)).
Proof.
  induction items as [|item rest IH]; intros w.
  - exists []. cbn. unfold ret. now rewrite !app_nil_r; destruct w.
  - destruct (fetchScenario_run location item w) as [log1 H1].
    cbn [promise_all]. unfold bind at 1. rewrite H1. cbv beta iota.
    unfold bind at 1.
    match goal with |- context [promise_all _ rest ?w1] =>
      destruct (IH w1) as [log2 H2]
    end.
    rewrite H2. cbv beta iota. unfold ret.
    exists (log1 ++ log2). cbn [ui sent console].
    rewrite <- !app_assoc. cbn [map List.length seq combine app].
    rewrite <- seq_shift, <- answers_shift.
    rewrite length_app. cbn [List.length]. rewrite Nat.add_1_r.
    reflexivity.
Qed.

(** X19. [fetchLocationRisk] always runs to its end, with the loading
    flag cleared, after exactly four requests, for magnitudes 4, 5, 6
    and 7 at the location, whether or not some of them fail.  With no
    answer at all it reports that the risk cannot be calculated and
    keeps the data it had; otherwise it stores the answered scenarios,
    in the order of the magnitudes, with the model of the first one,
    unless that first answer has no predictions, in which case it
    reports a failed load and keeps the data it had. *)
Theorem fetchLocationRisk_spec (location : Home.Location) (w : World') :
  let asked :=
    map (LocationRiskPanel.requestFor location) LocationRiskPanel.scenarios in
  let valid :=
    LocationRiskPanel.answered network (List.length (sent w)) location in
  exists w',
    LocationRiskPanel.fetchLocationRisk model_info network location w
    = (Normal tt, w') /\
    sent w' = sent w ++ asked /\
    map DetailPanel.req_magnitude asked = [4; 5; 6; 7]%R /\
    LocationRiskPanel.loading (ui w') = false /\
    match valid with
    | [] =>
        LocationRiskPanel.error (ui w')
        = Some "Unable to calculate risk for this location"%string /\
        LocationRiskPanel.riskData (ui w') = LocationRiskPanel.riskData (ui w)
    | first :: _ =>
        match LocationRiskPanel.sr_predictions first with
        | Some predictions =>
            LocationRiskPanel.error (ui w') = None /\
            LocationRiskPanel.riskData (ui w')
            = Some (LocationRiskPanel.mkRiskData location valid
                      (model_info predictions))
        | None =>
            LocationRiskPanel.error (ui w')
            = Some "Failed to load risk data"%string /\
            LocationRiskPanel.riskData (ui w')
            = LocationRiskPanel.riskData (ui w)
        end
    end.
Proof.
  cbv zeta.
  unfold LocationRiskPanel.fetchLocationRisk, LocationRiskPanel.answered.
  unfold bind at 1 2. unfold setState at 1 2. unfold modify at 1 2.
  cbn [fst snd].
  unfold try_catch_finally. cbn [ui sent console]. unfold bind at 1.
  match goal with |- context [promise_all _ _ ?w1] =>
    destruct (promise_all_run location LocationRiskPanel.scenarios w1)
      as [logged Hall]
  end.
  rewrite Hall. cbv beta iota. cbn [sent ui console].
  change (List.length LocationRiskPanel.scenarios) with 4%nat.
  set (results :=
         map (fun '(i, scenario) =>
                LocationRiskPanel.answer network (List.length (sent w))
                  location i scenario)
           (combine (seq 0 4) LocationRiskPanel.scenarios)).
  destruct (LocationRiskPanel.notNull results) as [|first rest] eqn:Hvalid.
  - unfold setState, modify. cbn.
    eexists. split; [reflexivity|]. cbn. repeat split.
  - destruct (LocationRiskPanel.sr_predictions first) as [p|] eqn:Hp.
    + unfold setState, modify. cbn.
      eexists. split; [reflexivity|]. cbn. repeat split.
    + unfold throw, bind, setState, console_error, modify. cbn.
      eexists. split; [reflexivity|]. cbn. repeat split.
Qed.
End LocationRisk.

Lemma loadEarthquakes_success_witness :
  Home.earthquakes
    (Effect.ui (snd (Home.loadEarthquakes Scenario.online Sample.home)))
  = [Sample.mainshock; Sample.weekOld] /\
  Home.mapZoom
    (Effect.ui (snd (Home.loadEarthquakes Scenario.online Sample.home)))
  = 5.
Proof.
  destruct (loadEarthquakes_success Scenario.online Sample.home
              (Home.mkResponse (Some [Sample.mainshock; Sample.weekOld]))
              eq_refl) as (Hlist & _ & Hcentre & _).
  split; [exact Hlist|].
  exact (proj2 (Hcentre Sample.mainshock [Sample.weekOld]
                  eq_refl eq_refl eq_refl)).
Defined.

Lemma fetchPredictions_success_witness :
  DetailPanel.predictions (Effect.ui Sample.panel) = Some 12%nat /\
  DetailPanel.predictions
    (Effect.ui (snd (DetailPanel.fetchPredictions Scenario.hollow
                       Sample.mainshock Sample.panel)))
  = None.
Proof.
  split; [reflexivity|].
  exact (proj1 (fetchPredictions_success Scenario.hollow Sample.mainshock
                  Sample.panel (DetailPanel.mkResponse None) eq_refl)).
Defined.

Lemma loadEarthquakes_retry_witness :
  Home.error
    (Effect.ui
       (snd (Async.andThen (Home.loadEarthquakes Scenario.flaky)
               (Home.loadEarthquakes Scenario.flaky) Sample.home)))
  = None /\
  Home.earthquakes
    (Effect.ui
       (snd (Async.andThen (Home.loadEarthquakes Scenario.flaky)
               (Home.loadEarthquakes Scenario.flaky) Sample.home)))
  = [Sample.mainshock; Sample.weekOld].
Proof.
  destruct (loadEarthquakes_retry Scenario.flaky Sample.home "Network Error"
              (Home.mkResponse (Some [Sample.mainshock; Sample.weekOld]))
              eq_refl eq_refl) as (_ & Herr & _ & Hlist & _).
  split; [exact Herr | exact Hlist].
Defined.

(** ** What is selected on the home page *)

Section Navigation.
Import HomeNavigation.

Lemma step_consistent (s : State) (a : Action) :
  consistent s -> consistent (step s a).
Proof.
  unfold consistent. intros Hone. destruct a; simpl; tauto.
Qed.

Lemma fold_consistent (actions : list Action) :
  forall s, consistent s -> consistent (fold_left step actions s).
Proof.
  induction actions as [|a actions IH]; intros s Hs; simpl; [exact Hs|].
  apply IH. now apply step_consistent.
Qed.

(** X20. Whatever the user does on the home page (click an earthquake,
    search a place, clear the search, close the panel, locate, open or
    close the list), an earthquake and a searched place are never held
    together, so a searched place always has its risk panel on screen
    and the two panels are never shown at once. *)
Theorem navigation_invariant (actions : list Action) :
  let s := run actions in
  (selectedEarthquake s = None \/ searchedLocation s = None) /\
  showsLocationRiskPanel s = negb (Home.isNull (searchedLocation s)) /\
  showsDetailPanel s && showsLocationRiskPanel s = false.
Proof.
  cbv zeta.
  assert (Hone : consistent (run actions)).
  { apply fold_consistent. unfold consistent, initial. simpl. tauto. }
  unfold consistent in Hone. split; [exact Hone|].
  unfold showsLocationRiskPanel, showsDetailPanel.
  destruct (selectedEarthquake (run actions)) as [e|];
    destruct (searchedLocation (run actions)) as [l|]; simpl;
    repeat split; auto; destruct Hone; discriminate.
Qed.
End Navigation.

(** ** More on the debounce *)

Section DebounceMore.
Import SearchBar SearchBarFacts.

Lemma changes_snoc (past : list Event) (e : Event) :
  changes (past ++ [e])
  = (changes past
     + match e with Change _ _ => 1 | Timeout _ _ => 0 end)%nat.
Proof.
  unfold changes. rewrite filter_app, length_app. destruct e; reflexivity.
Qed.

Lemma step_bounded (past : list Event) (s s' : State) (e : Event) :
  Invariant past s -> bounded past s -> step s e = Some s' ->
  bounded (past ++ [e]) s'.
Proof.
  intros Hinv [Hone Hsum] Hstep. unfold bounded. rewrite changes_snoc.
  destruct e as [t q | t h].
  - destruct (change_timers s s' t q (inv_handle _ _ Hinv) Hstep)
      as (_ & _ & _ & _ & Hr & Htm & _).
    rewrite Hr, Htm.
    destruct (3 <=? String.length (trim q))%nat; simpl; lia.
  - simpl in Hstep.
    destruct (Z.leb_spec (clock s) t); [|discriminate].
    destruct (find (fun tm => (handle tm =? h)%nat) (timers s))
      as [tm|] eqn:Hfind; [|discriminate].
    destruct (Z.leb_spec (due tm) t); [|discriminate].
    injection Hstep as <-.
    apply find_some in Hfind. destruct Hfind as [Hin Hh].
    destruct (timers s) as [|tm' [|tm'' rest]] eqn:Htimers;
      [contradiction | | simpl in Hone; lia].
    destruct Hin as [->|[]].
    unfold fetchSuggestions.
    destruct (String.length (argument tm) <? 3)%nat; cbn;
      rewrite ?Htimers, ?length_app; cbn; rewrite Hh; cbn in *; lia.
Qed.

Lemma run_bounded (events : list Event) :
  forall past s s',
    Invariant past s -> bounded past s -> run s events = Some s' ->
    bounded (past ++ events) s'.
Proof.
  induction events as [|e events IH]; intros past s s' Hinv Hb Hrun.
  - simpl in Hrun. injection Hrun as <-. now rewrite app_nil_r.
  - simpl in Hrun. destruct (step s e) as [s1|] eqn:Hstep; [|discriminate].
    replace (past ++ e :: events) with ((past ++ [e]) ++ events)
      by (now rewrite <- app_assoc).
    apply IH with s1; [| |exact Hrun].
    + now apply step_invariant with s.
    + now apply step_bounded with s.
Qed.

(** X21. The search box never has two timeouts pending, and it never
    sends more autocomplete requests than the input has changed: the
    requests sent, plus the one that may still be pending, are at most
    the number of changes. *)
Theorem debounce_bounded
  (t0 : Z) (events : list Event) (s : State)
  (Hrun : run (mounted t0) events = Some s) :
  (List.length (timers s) <= 1)%nat /\
  (List.length (requests s) + List.length (timers s) <= changes events)%nat.
Proof.
  apply (run_bounded events [] (mounted t0) s (mounted_invariant t0));
    [|exact Hrun].
  unfold bounded. simpl. lia.
Qed.

Lemma trimStart_length (q : string) :
  (String.length (trimStart q) <= String.length q)%nat.
Proof.
  induction q as [|c q IH]; simpl; [lia|].
  destruct (isBlank c); simpl; lia.
Qed.

Lemma trimEnd_length (q : string) :
  (String.length (trimEnd q) <= String.length q)%nat.
Proof.
  induction q as [|c q IH]; simpl; [lia|].
  destruct (trimEnd q); [destruct (isBlank c)|]; simpl in *; lia.
Qed.

Lemma trim_length (q : string) :
  (String.length (trim q) <= String.length q)%nat.
Proof.
  unfold trim. etransitivity; [apply trimEnd_length | apply trimStart_length].
Qed.

(** X22. After a change to a text with at least 3 characters once
    trimmed, the timeout it started can run at any time from 300 ms
    after the change; when it runs it is the only one pending, and it
    sends one request, for exactly that text, and raises the loading
    flag. *)
Theorem debounce_fires
  (t0 : Z) (events : list Event) (s s1 : State) (t t' : Z) (q : string)
  (Hrun : run (mounted t0) events = Some s)
  (Hchange : step s (Change t q) = Some s1)
  (Hlong : (3 <= String.length (trim q))%nat)
  (Hlater : t + delay <= t') :
  exists s2,
    step s1 (Timeout t' (nextHandle s)) = Some s2 /\
    requests s2 = requests s1 ++ [mkRequest t' q] /\
    timers s2 = [] /\
    loading s2 = true.
Proof.
  pose proof (run_invariant events [] _ s (mounted_invariant t0) Hrun) as Hinv.
  destruct (change_timers s s1 t q (inv_handle _ _ Hinv) Hchange)
    as (_ & _ & _ & Hclock & _ & Htimers & _).
  replace (3 <=? String.length (trim q))%nat with true in Htimers
    by (symmetry; now apply Nat.leb_le).
  pose proof (trim_length q) as Hlen.
  unfold step. rewrite Hclock.
  destruct (Z.leb_spec t t') as [_|Hbad]; [|unfold delay in Hlater; lia].
  rewrite Htimers. cbn [find handle]. rewrite Nat.eqb_refl. cbn [due].
  destruct (Z.leb_spec (t + delay) t') as [_|Hbad]; [|lia].
  cbn [argument]. unfold fetchSuggestions.
  replace (String.length q <? 3)%nat with false
    by (symmetry; apply Nat.ltb_ge; lia).
  eexists. split; [reflexivity|]. cbn.
  rewrite Htimers. unfold without. cbn. rewrite Nat.eqb_refl. cbn.
  repeat split.
Qed.

Lemma debounce_fires_witness :
  exists s2,
    step (effect (setSearchQuery "par" (cleanup (setClock 0 (mounted 0)))))
      (Timeout 300 1) = Some s2 /\
    requests s2 = [mkRequest 300 "par"].
Proof.
  destruct (debounce_fires 0 [] (mounted 0) _ 0 300 "par"
              eq_refl eq_refl) as (s2 & Hstep & Hreq & _).
  - vm_compute. lia.
  - vm_compute. discriminate.
  - exists s2. split; [exact Hstep | exact Hreq].
Defined.

Lemma debounce_bounded_witness :
  exists s,
    run (mounted 0) Sample.typing = Some s /\
    (List.length (requests s) + List.length (timers s)
     <= changes Sample.typing)%nat.
Proof.
  eexists. split; [vm_compute; reflexivity|].
  exact (proj2 (debounce_bounded 0 Sample.typing _ eq_refl)).
Defined.
End DebounceMore.

(** ** Widening the radius *)

(** X23. Widening the radius never loses an event: with [r1 <= r2]
    every record returned for [r1] is returned for [r2], and the list
    for [r2] is at least as long. *)
Theorem filterEarthquakesByRadius_monotone
  (earthquakes : list Earthquake) (lat lon r1 r2 : R)
  (Hle : (r1 <= r2)%R) :
  incl (filterEarthquakesByRadius earthquakes lat lon r1)
    (filterEarthquakesByRadius earthquakes lat lon r2) /\
  (List.length (filterEarthquakesByRadius earthquakes lat lon r1)
   <= List.length (filterEarthquakesByRadius earthquakes lat lon r2))%nat.
Proof.
  split.
  - intros e' He'. apply filterEarthquakesByRadius_In in He'.
    destruct He' as (e & He & Hloc & Hd).
    apply filterEarthquakesByRadius_In. exists e. repeat split; auto. lra.
  - unfold filterEarthquakesByRadius. rewrite !Array_sort_length.
    apply filter_length_impl. intros x _ Hx. unfold within in *.
    destruct (distance x) as [d|]; [|discriminate].
    apply Rleb_true in Hx. apply Rleb_true. lra.
Qed.

Lemma filterEarthquakesByRadius_monotone_witness :
  (50 <= 500)%R /\
  incl (filterEarthquakesByRadius [Sample.weekOld] 35 139 50)
    (filterEarthquakesByRadius [Sample.weekOld] 35 139 500).
Proof.
  assert (H : (50 <= 500)%R) by lra.
  split; [exact H|].
  exact (proj1 (filterEarthquakesByRadius_monotone _ _ _ _ _ H)).
Defined.

Lemma findLastEarthquakeHere_In (earthquakes : list Earthquake) (lat lon : R)
  (e : Earthquake) :
  findLastEarthquakeHere earthquakes lat lon = Some e ->
  In e earthquakes /\
  (calculateDistance lat lon (latitude e) (longitude e) <= 50)%R.
Proof.
  unfold findLastEarthquakeHere. cbv zeta.
  match goal with |- context [Array_sort byTimeDesc ?l] =>
    pose proof (Array_sort_In byTimeDesc l e) as Hin;
    destruct (Array_sort byTimeDesc l) as [|first rest]
  end; [discriminate|].
  intros H. injection H as ->.
  assert (He : In e (e :: rest)) by now left.
  apply Hin in He. apply filter_In in He. destruct He as [He Hd].
  split; [exact He | now apply Rleb_true].
Qed.

(** X24. In the real-time card the last earthquake at the location,
    when there is one, is one of the events within 500 km (with its
    distance and direction added), so the list of recent events of the
    card is not empty. *)
Theorem lastHere_is_nearby (now now' : Z) (lat lon : R)
  (allEarthquakes : list Earthquake) :
  let more := RealTimeMetrics.render now now' lat lon allEarthquakes in
  match RealTimeMetrics.lastHere more with
  | Some e =>
      In (located lat lon e)
        (filterEarthquakesByRadius allEarthquakes lat lon 500) /\
      RealTimeMetrics.nearest more <> []
  | None => True
  end.
Proof.
  cbv zeta. unfold RealTimeMetrics.render. cbv zeta.
  cbn [RealTimeMetrics.lastHere RealTimeMetrics.nearest].
  destruct (findLastEarthquakeHere allEarthquakes lat lon) as [e|] eqn:He;
    [|exact I].
  apply findLastEarthquakeHere_In in He. destruct He as [Hin Hd].
  assert (Hnear : In (located lat lon e)
                    (filterEarthquakesByRadius allEarthquakes lat lon 500)).
  { apply filterEarthquakesByRadius_complete; [exact Hin | lra]. }
  split; [exact Hnear|].
  unfold RealTimeMetrics.nearestEvents.
  destruct (filterEarthquakesByRadius allEarthquakes lat lon 500);
    [contradiction | discriminate].
Qed.

(** ** Short texts *)

Section ShortTexts.
Import SearchBar SearchBarFacts.

Lemma step_meaningful (past : list Event) (s s' : State) (e : Event) :
  Invariant past s -> meaningful s -> step s e = Some s' -> meaningful s'.
Proof.
  intros Hinv [Htm Hreq] Hstep. unfold meaningful.
  destruct e as [t q | t h].
  - destruct (change_timers s s' t q (inv_handle _ _ Hinv) Hstep)
      as (_ & _ & _ & _ & Hr & Htimers & _).
    rewrite Hr, Htimers. split; [|exact Hreq].
    destruct (Nat.leb_spec 3 (String.length (trim q)));
      repeat constructor. exact H.
  - simpl in Hstep.
    destruct (Z.leb_spec (clock s) t); [|discriminate].
    destruct (find (fun tm => (handle tm =? h)%nat) (timers s))
      as [tm|] eqn:Hfind; [|discriminate].
    destruct (Z.leb_spec (due tm) t); [|discriminate].
    injection Hstep as <-.
    apply find_some in Hfind. destruct Hfind as [Hin _].
    assert (Hlong : longEnough (argument tm)).
    { rewrite Forall_forall in Htm. now apply Htm. }
    unfold fetchSuggestions.
    destruct (String.length (argument tm) <? 3)%nat; cbn; split;
      try (apply without_incl; exact Htm); try exact Hreq.
    apply Forall_app. split; [exact Hreq|]. now repeat constructor.
Qed.

Lemma run_meaningful (events : list Event) :
  forall past s s',
    Invariant past s -> meaningful s -> run s events = Some s' ->
    meaningful s'.
Proof.
  induction events as [|e events IH]; intros past s s' Hinv Hm Hrun.
  - simpl in Hrun. now injection Hrun as <-.
  - simpl in Hrun. destruct (step s e) as [s1|] eqn:Hstep; [|discriminate].
    apply IH with (past ++ [e]) s1; [| |exact Hrun].
    + now apply step_invariant with s.
    + now apply step_meaningful with past s e.
Qed.

(** X25. The search box never asks suggestions for a text of fewer than
    3 characters once trimmed: every request sent is for a longer text,
    nothing is pending while the input holds a shorter one, and so
    every timeout that runs does send a request (the early return of
    [fetchSuggestions] is never taken). *)
Theorem no_request_for_short_text
  (t0 : Z) (events : list Event) (s : State)
  (Hrun : run (mounted t0) events = Some s) :
  Forall (fun r => (3 <= String.length (trim (text r)))%nat) (requests s) /\
  ((String.length (trim (searchQuery s)) < 3)%nat -> timers s = []) /\
  (forall t h s',
      step s (Timeout t h) = Some s' ->
      exists q, requests s' = requests s ++ [mkRequest t q]).
Proof.
  pose proof (run_invariant events [] _ s (mounted_invariant t0) Hrun) as Hinv.
  assert (Hm : meaningful s).
  { apply (run_meaningful events [] (mounted t0) s (mounted_invariant t0));
      [|exact Hrun].
    split; constructor. }
  destruct Hm as [Htm Hreq]. split; [exact Hreq|]. split.
  - intros Hshort. destruct (timers s) as [|tm rest] eqn:Htimers;
      [reflexivity|].
    pose proof (inv_argument _ _ Hinv) as Harg. rewrite Htimers in Harg.
    inversion Harg as [|? ? Ha _]. inversion Htm as [|? ? Hl _].
    unfold longEnough in Hl. rewrite Ha in Hl. lia.
  - intros t h s' Hstep. simpl in Hstep.
    destruct (Z.leb_spec (clock s) t); [|discriminate].
    destruct (find (fun tm => (handle tm =? h)%nat) (timers s))
      as [tm|] eqn:Hfind; [|discriminate].
    destruct (Z.leb_spec (due tm) t); [|discriminate].
    injection Hstep as <-.
    apply find_some in Hfind. destruct Hfind as [Hin _].
    rewrite Forall_forall in Htm. specialize (Htm tm Hin).
    unfold longEnough in Htm. pose proof (trim_length (argument tm)) as Hlen.
    unfold fetchSuggestions.
    replace (String.length (argument tm) <? 3)%nat with false
      by (symmetry; apply Nat.ltb_ge; lia).
    exists (argument tm). reflexivity.
Qed.

Lemma no_request_for_short_text_witness :
  exists s,
    run (mounted 0) Sample.deleting = Some s /\
    timers s = [].
Proof.
  eexists. split; [vm_compute; reflexivity|].
  apply (no_request_for_short_text 0 Sample.deleting _ eq_refl).
  vm_compute. lia.
Defined.
End ShortTexts.
